(** * RedEye: server resolvers, parser validation endpoint, comments list

    A shallow embedding of three units of the RedEye application:

    - [ServerResolvers]  the GraphQL resolvers of
      [applications/server/src/store/server-resolvers.ts];
    - [ParserEndpoint]   the route [POST /parser/:parserName/validate-files]
      ([parserFileValidation]);
    - [CommentsList]     the row rendering of the presentation list component.

    Database tables are lists of rows, and the entity manager's calls are the
    SQL statements they issue: [nativeUpdate] is [UPDATE ... SET ... WHERE],
    [find] is [SELECT ... WHERE].  Strings are sequences of code units; the
    model covers the code units below 256. *)

From Stdlib Require Import Ascii.
From stdpp Require Import base option list strings gmap.

Set Default Proof Using "Type".
Open Scope string_scope.

(** ** Strings and paths *)

Module Js.

(** [s.replace(/:/gi, '/')] and the like: every occurrence of one character
    is replaced by another. *)
Fixpoint replaceAll (from to : ascii) (s : string) : string :=
  match s with
  | EmptyString => EmptyString
  | String c s' => String (if bool_decide (c = from) then to else c) (replaceAll from to s')
  end.

(** [s.split(sep)] for a separator of one character; the result is never
    empty. *)
Fixpoint split (sep : ascii) (s : string) : list string :=
  match s with
  | EmptyString => [EmptyString]
  | String c s' =>
      if bool_decide (c = sep) then EmptyString :: split sep s'
      else match split sep s' with
           | seg :: segs => String c seg :: segs
           | [] => [String c EmptyString]
           end
  end.

(** The class [\s] on code units below 256: tab, line feed, vertical tab,
    form feed, carriage return, space, no-break space. *)
Definition isWhitespace (c : ascii) : bool :=
  bool_decide (nat_of_ascii c ∈ [9; 10; 11; 12; 13; 32; 160]).

Definition backslash : ascii := "092"%char.

(** [s.replace(/(\s+)/g, '\\$1')]: every maximal run of whitespace is
    replaced by a backslash followed by the run.  [inRun] tells that the
    previous character was whitespace. *)
Fixpoint escapeRuns (inRun : bool) (s : string) : string :=
  match s with
  | EmptyString => EmptyString
  | String c s' =>
      if isWhitespace c then
        if inRun then String c (escapeRuns true s')
        else String backslash (String c (escapeRuns true s'))
      else String c (escapeRuns false s')
  end.

Definition escapeWhitespace (s : string) : string := escapeRuns false s.

(** [s.slice(start)] and [s.slice(start, end)] for indices that are not
    negative. *)
Definition sliceFrom (start : nat) (s : string) : string :=
  String.substring start (String.length s - start) s.

Definition slice (start end_ : nat) (s : string) : string :=
  String.substring start (end_ - start) s.

End Js.

(** Node's [path] module on POSIX. *)
Module Path.

Definition isAbsolute (path : string) : bool :=
  match path with
  | String "/" _ => true
  | _ => false
  end.

Fixpoint endsWithSlash (path : string) : bool :=
  match path with
  | EmptyString => false
  | String c EmptyString => bool_decide (c = "/"%char)
  | String _ rest => endsWithSlash rest
  end.

(** One segment of [normalizeString]; [res] holds the segments kept so far,
    the last one first.  Empty segments and [.] are dropped, [..] removes the
    last kept segment, or is kept itself above the start of a relative path. *)
Definition normalizeStep (allowAboveRoot : bool) (res : list string) (seg : string)
    : list string :=
  if bool_decide (seg = "" ∨ seg = ".") then res
  else if bool_decide (seg = "..") then
    match res with
    | last :: rest =>
        if bool_decide (last = "..") then (if allowAboveRoot then ".." :: res else res)
        else rest
    | [] => if allowAboveRoot then [".."] else []
    end
  else seg :: res.

(** The segments that [normalizeStep] keeps of a list that holds no [..]. *)
Definition kept (segs : list string) : list string :=
  filter (λ seg, ¬ (seg = "" ∨ seg = ".")) segs.

Definition normalizeSegments (allowAboveRoot : bool) (segs : list string) : list string :=
  rev (foldl (normalizeStep allowAboveRoot) [] segs).

(** The path string of a list of kept segments. *)
Definition render (absolute trailingSeparator : bool) (segs : list string) : string :=
  match segs with
  | [] => if absolute then "/" else if trailingSeparator then "./" else "."
  | _ =>
      (if absolute then "/" else "") +:+ String.concat "/" segs
      +:+ (if trailingSeparator then "/" else "")
  end.

Definition normalize (path : string) : string :=
  match path with
  | EmptyString => "."
  | _ =>
      render (isAbsolute path) (endsWithSlash path)
        (normalizeSegments (negb (isAbsolute path)) (Js.split "/" path))
  end.

(** [path.join(...args)]: the arguments that are not empty, joined by [/] and
    normalized. *)
Definition join (args : list string) : string :=
  match filter (λ arg, arg ≠ "") args with
  | [] => "."
  | args => normalize (String.concat "/" args)
  end.

End Path.

(** ** Outcomes of fallible calls *)

Inductive Error : Type :=
  | NotFound (what : string)
  | TypeError (what : string)
  | Exception (what : string).

Inductive Result (A : Type) : Type :=
  | Ok (a : A)
  | Fail (e : Error).
Arguments Ok {A} a.
Arguments Fail {A} e.

Definition bind {A B} (r : Result A) (k : A → Result B) : Result B :=
  match r with
  | Ok a => k a
  | Fail e => Fail e
  end.

Notation "'let*' x := r 'in' k" := (bind r (λ x, k))
  (at level 10, x pattern, r at level 100, k at level 200, only parsing).

Definition orFail {A} (what : string) (o : option A) : Result A :=
  match o with
  | Some a => Ok a
  | None => Fail (NotFound what)
  end.

(** ** Entities

    Modelled from the spec: the entity classes of [@redeye/models] ([Server],
    [Beacon], [Host], [GlobalOperator], [Campaign], [ServerType]) are imported
    by the resolvers and not part of the sources; the records carry the fields
    the spec's data model lists and the resolvers read or write. *)

(** The values of [ServerType] are strings that are not empty, so a server
    type that is provided is truthy. *)
Inductive ServerType : Type := HTTP | HTTPS | SMB | DNS.

Module Server.
Record t : Type := mk {
  id : string;
  name : string;
  displayName : string;
  parsingPath : string;
  hidden : bool;
  meta_type : ServerType;
}.
Definition set_hidden (v : bool) (s : t) : t :=
  mk (id s) (name s) (displayName s) (parsingPath s) v (meta_type s).
Definition set_name (v : string) (s : t) : t :=
  mk (id s) v (displayName s) (parsingPath s) (hidden s) (meta_type s).
Definition set_displayName (v : string) (s : t) : t :=
  mk (id s) (name s) v (parsingPath s) (hidden s) (meta_type s).
Definition set_parsingPath (v : string) (s : t) : t :=
  mk (id s) (name s) (displayName s) v (hidden s) (meta_type s).
Definition set_meta_type (v : ServerType) (s : t) : t :=
  mk (id s) (name s) (displayName s) (parsingPath s) (hidden s) v.
End Server.

Module Beacon.
Record t : Type := mk {
  id : string;
  displayName : string;
  hidden : bool;
  (* [beacon.host?.id]: the id of the beacon's host, when it has one *)
  host : option string;
  (* the id of the owning server *)
  server : string;
}.
Definition set_hidden (v : bool) (b : t) : t :=
  mk (id b) (displayName b) v (host b) (server b).
Definition set_displayName (v : string) (b : t) : t :=
  mk (id b) v (hidden b) (host b) (server b).
End Beacon.

Module Host.
Record t : Type := mk {
  id : string;
  displayName : string;
  hidden : bool;
  cobaltStrikeServer : bool;
}.
Definition set_hidden (v : bool) (h : t) : t :=
  mk (id h) (displayName h) v (cobaltStrikeServer h).
Definition set_displayName (v : string) (h : t) : t :=
  mk (id h) v (hidden h) (cobaltStrikeServer h).
End Host.

Module Campaign.
Record t : Type := mk {
  id : string;
  lastOpenedBy : option string;
}.
Definition set_lastOpenedBy (v : option string) (c : t) : t := mk (id c) v.
End Campaign.

(** ** The stores *)

(** The database of one campaign. *)
Record ProjectDb : Type := mkProjectDb {
  servers_tbl : list Server.t;
  beacons_tbl : list Beacon.t;
  hosts_tbl : list Host.t;
}.

(** The main database: operators (keyed by their name) and campaigns. *)
Record MainDb : Type := mkMainDb {
  operators_tbl : list string;
  campaigns_tbl : list Campaign.t;
}.

Inductive Signal : Type :=
  | ForkMain
  | ForkProject (campaignId : string).

(** What a resolver reaches through [ctx]: the main database (when it is
    connected), the campaign databases by campaign id, and the notifications
    sent to the cache manager [ctx.cm], latest first.  [campaignUpdateThrows]
    tells whether an update of the [Campaign] table of the main database
    throws, as a database that refuses the write makes it do. *)
Record Context : Type := mkContext {
  mainDb : option MainDb;
  projects : gmap string ProjectDb;
  signals : list Signal;
  campaignUpdateThrows : bool;
}.

Definition set_mainDb (m : MainDb) (ctx : Context) : Context :=
  mkContext (Some m) (projects ctx) (signals ctx) (campaignUpdateThrows ctx).
Definition set_project (campaignId : string) (db : ProjectDb) (ctx : Context) : Context :=
  mkContext (mainDb ctx) (<[campaignId := db]> (projects ctx)) (signals ctx)
    (campaignUpdateThrows ctx).
Definition signal (s : Signal) (ctx : Context) : Context :=
  mkContext (mainDb ctx) (projects ctx) (s :: signals ctx) (campaignUpdateThrows ctx).

(** ** The entity manager *)

Module Em.
(** [em.nativeUpdate(Entity, where, data)]: every row matching [where] is
    rewritten by [data], the others are left as they are. *)
Definition nativeUpdate {A} (where_ : A → bool) (data : A → A) (tbl : list A) : list A :=
  (λ row, if where_ row then data row else row) <$> tbl.

(** [em.find(Entity, where)]. *)
Definition find {A} (where_ : A → bool) (tbl : list A) : list A :=
  filter (λ row, where_ row) tbl.

(** [em.findOne(Entity, where)]. *)
Definition findOne {A} (where_ : A → bool) (tbl : list A) : option A :=
  head (find where_ tbl).

(** A filter [{ id: v }] where [v] may be [undefined] (as in
    [{ id: beacon.host?.id }]): an undefined id equals no primary key. *)
Definition idIs {A} (key : A → string) (v : option string) (row : A) : bool :=
  match v with
  | Some i => bool_decide (key row = i)
  | None => false
  end.

(** [em.persistAndFlush(entity)] for a managed entity: its row is written
    back. *)
Definition persistAndFlush (server : Server.t) (db : ProjectDb) : ProjectDb :=
  mkProjectDb
    (nativeUpdate (idIs Server.id (Some (Server.id server))) (λ _, server) (servers_tbl db))
    (beacons_tbl db) (hosts_tbl db).
End Em.

(** Modelled from the spec: [connectToProjectEmOrFail] and [getMainEmOrFail]
    of [./utils/project-db] are not part of the sources; the first resolves a
    campaign id to the campaign's database connection and fails with NotFound
    when the id does not resolve, the second hands out the main connection. *)
Definition connectToProjectEmOrFail (campaignId : string) (ctx : Context) : Result ProjectDb :=
  orFail campaignId (projects ctx !! campaignId).

Definition getMainEmOrFail (ctx : Context) : Result MainDb :=
  orFail "main" (mainDb ctx).

(** ** Server resolvers *)

Module ServerUpdateInput.
(** The input of [serverUpdate]; every field may be left out. *)
Record t : Type := mk {
  parsingPath : option string;
  name : option string;
  displayName : option string;
}.
End ServerUpdateInput.

Module ServerResolvers.

(** Truthiness of an optional string argument: [undefined] and the empty
    string are falsy. *)
Definition truthy (v : option string) : option string :=
  match v with
  | Some "" => None
  | other => other
  end.

(** A [Server] as a resolver returns it: the entity and its [beacons]
    collection, which holds items once it has been initialised. *)
Record Loaded : Type := mkLoaded {
  entity : Server.t;
  beacons : list Beacon.t;
}.

(** [server.beacons.init({ where })]: the beacons of the server that match
    [where].  The list holds them in table order; the order in which the
    entity manager hands a collection over is its own and is not modelled. *)
Definition beacons_init (where_ : Beacon.t → bool) (db : ProjectDb) (server : Server.t)
    : list Beacon.t :=
  Em.find (λ b, bool_decide (Beacon.server b = Server.id server) && where_ b) (beacons_tbl db).

Definition anyRow {A} (_ : A) : bool := true.

(** Modelled from the spec: [OperatorResolvers.createGlobalOperatorHandler]
    is not part of the sources; it creates the operator record for a user
    name and returns it. *)
Definition createGlobalOperatorHandler (username : string) (m : MainDb) : string * MainDb :=
  (username, mkMainDb (operators_tbl m ++ [username]) (campaigns_tbl m)).

(** The filter [{ hidden, beacons: { hidden } }] on servers: the server has
    the flag and is joined to at least one beacon that has it. *)
Definition serversWhere (hidden : bool) (db : ProjectDb) (s : Server.t) : bool :=
  bool_decide (Server.hidden s = hidden)
  && existsb (λ b, bool_decide (Beacon.server b = Server.id s)
                   && bool_decide (Beacon.hidden b = hidden)) (beacons_tbl db).

(** The update of [lastOpenedBy] sits in a [try] whose [catch] only logs:
    when the update throws, the main database keeps its campaigns as they are
    and the resolver goes on.  The relation paths to populate do not change
    which servers and beacons are returned and are left out. *)
Definition servers (ctx : Context) (campaignId username : string) (hidden : bool)
    : Result (list Loaded * Context) :=
  let* projectEm := connectToProjectEmOrFail campaignId ctx in
  let* em := getMainEmOrFail ctx in
  let '(operator, em) :=
    match Em.findOne (λ o, bool_decide (o = username)) (operators_tbl em) with
    | Some operator => (operator, em)
    | None => createGlobalOperatorHandler username em
    end in
  let em :=
    if campaignUpdateThrows ctx then em
    else
      mkMainDb (operators_tbl em)
        (Em.nativeUpdate (Em.idIs Campaign.id (Some campaignId))
           (Campaign.set_lastOpenedBy (Some operator)) (campaigns_tbl em)) in
  let servers :=
    Em.find (if negb hidden then serversWhere hidden projectEm else anyRow)
      (servers_tbl projectEm) in
  let servers :=
    (λ server,
      mkLoaded server
        (beacons_init (if negb hidden then (λ b, bool_decide (Beacon.hidden b = hidden))
                       else anyRow) projectEm server)) <$> servers in
  Ok (servers, signal ForkMain (set_mainDb em ctx)).

(** One round of the loop of [toggleServerHidden]. *)
Definition toggleBeacon (hidden : bool) (db : ProjectDb) (beacon : Beacon.t) : ProjectDb :=
  let beacons :=
    Em.nativeUpdate (Em.idIs Beacon.id (Some (Beacon.id beacon)))
      (Beacon.set_hidden hidden) (beacons_tbl db) in
  let hosts :=
    Em.nativeUpdate (Em.idIs Host.id (Beacon.host beacon))
      (Host.set_hidden hidden) (hosts_tbl db) in
  mkProjectDb (servers_tbl db) beacons hosts.

Definition toggleServerHidden (ctx : Context) (campaignId serverId : string)
    : Result (Loaded * Context) :=
  let* em := connectToProjectEmOrFail campaignId ctx in
  let* server := orFail serverId (Em.findOne (Em.idIs Server.id (Some serverId)) (servers_tbl em)) in
  let server := Server.set_hidden (negb (Server.hidden server)) server in
  let beacons := beacons_init anyRow em server in
  let em := foldl (toggleBeacon (Server.hidden server)) em beacons in
  let em := Em.persistAndFlush server em in
  Ok (mkLoaded server beacons, signal (ForkProject campaignId) (set_project campaignId em ctx)).

Definition updateServerMetadata (ctx : Context) (serverId campaignId : string)
    (serverDisplayName : option string) (serverType : option ServerType)
    : Result (Server.t * Context) :=
  let* em := connectToProjectEmOrFail campaignId ctx in
  let* server := orFail serverId (Em.findOne (Em.idIs Server.id (Some serverId)) (servers_tbl em)) in
  let '(server, em) :=
    match truthy serverDisplayName with
    | Some serverDisplayName =>
        let beacons :=
          Em.nativeUpdate
            (λ b, existsb (λ h, Em.idIs Host.id (Beacon.host b) h && Host.cobaltStrikeServer h)
                    (hosts_tbl em)
                  && bool_decide (Beacon.server b = serverId))
            (Beacon.set_displayName serverDisplayName) (beacons_tbl em) in
        let hosts :=
          Em.nativeUpdate
            (λ h, Host.cobaltStrikeServer h
                  && existsb (λ b, Em.idIs Host.id (Beacon.host b) h
                                   && bool_decide (Beacon.server b = serverId))
                       (beacons_tbl em))
            (Host.set_displayName serverDisplayName) (hosts_tbl em) in
        (Server.set_displayName serverDisplayName server,
         mkProjectDb (servers_tbl em) beacons hosts)
    | None => (server, em)
    end in
  let server :=
    match serverType with
    | Some serverType => Server.set_meta_type serverType server
    | None => server
    end in
  let em := Em.persistAndFlush server em in
  Ok (server, set_project campaignId em ctx).

Definition serverUpdate (ctx : Context) (campaignId serverId : string)
    (input : ServerUpdateInput.t) : Result (Server.t * Context) :=
  let* em := connectToProjectEmOrFail campaignId ctx in
  let* server := orFail serverId (Em.findOne (Em.idIs Server.id (Some serverId)) (servers_tbl em)) in
  let server :=
    match truthy (ServerUpdateInput.parsingPath input) with
    | Some parsingPath => Server.set_parsingPath parsingPath server
    | None => server
    end in
  let server :=
    match truthy (ServerUpdateInput.name input) with
    | Some name => Server.set_name name server
    | None => server
    end in
  let server :=
    match truthy (ServerUpdateInput.displayName input) with
    | Some displayName => Server.set_displayName displayName server
    | None => server
    end in
  let em := Em.persistAndFlush server em in
  Ok (server, signal (ForkProject campaignId) (set_project campaignId em ctx)).

(** Two calls in a row, the second on the context the first leaves. *)
Definition toggleServerHiddenTwice (ctx : Context) (campaignId serverId : string)
    : Result (Loaded * Context) :=
  match toggleServerHidden ctx campaignId serverId with
  | Ok (_, ctx) => toggleServerHidden ctx campaignId serverId
  | Fail e => Fail e
  end.

(** The rows that go with a server: the beacons associated with it, and the
    hosts of those beacons. *)
Definition beaconsOf (db : ProjectDb) (serverId : string) : list Beacon.t :=
  Em.find (λ b, bool_decide (Beacon.server b = serverId)) (beacons_tbl db).

Definition hostsOf (db : ProjectDb) (serverId : string) : list Host.t :=
  Em.find (λ h, existsb (λ b, Em.idIs Host.id (Beacon.host b) h) (beaconsOf db serverId))
    (hosts_tbl db).

Definition serverOf (db : ProjectDb) (serverId : string) : option Server.t :=
  Em.findOne (Em.idIs Server.id (Some serverId)) (servers_tbl db).

(** The hidden flags of a server, of its beacons and of their hosts. *)
Definition hiddenFlags (db : ProjectDb) (serverId : string)
    : option bool * list bool * list bool :=
  (Server.hidden <$> serverOf db serverId,
   Beacon.hidden <$> beaconsOf db serverId,
   Host.hidden <$> hostsOf db serverId).

End ServerResolvers.

(** ** The parser validation endpoint *)

Module UploadedFile.
(** An uploaded file, as far as the endpoint looks at it: its [name]. *)
Record t : Type := mk { name : string }.
End UploadedFile.

Module ParserEndpoint.

(** What the endpoint does to the world outside, in order. *)
Inductive Event : Type :=
  | CreateTempDir (dir : string)
  | RemoveTempDir (dir : string)
  | Mv (name : string) (dest : string)
  | InvokeParser (parserName : string) (args : list string).

(** A computation: the events it caused and how it ended. *)
Definition Eff (A : Type) : Type := list Event * Result A.

Definition ret {A} (a : A) : Eff A := ([], Ok a).
Definition throw {A} (e : Error) : Eff A := ([], Fail e).
Definition emit (ev : Event) : Eff unit := ([ev], Ok tt).

Definition andThen {A B} (m : Eff A) (k : A → Eff B) : Eff B :=
  match m with
  | (tr, Ok a) => let '(tr', r) := k a in ((tr ++ tr')%list, r)
  | (tr, Fail e) => (tr, Fail e)
  end.

Notation "'do' x <- m ; k" := (andThen m (λ x, k))
  (at level 10, x pattern, m at level 100, k at level 200, only parsing).

(** [req.files.file]: absent, one file, or an array of files. *)
Inductive FileField : Type :=
  | NoFile
  | OneFile (file : UploadedFile.t)
  | FileList (files : list UploadedFile.t).

Record Request : Type := mkRequest {
  params_parserName : string;
  files : option FileField;
}.

Inductive Body : Type :=
  | Msg (msg : string)
  | Validated (result : string).

Record Response : Type := mkResponse {
  status : nat;
  body : Body;
}.

(** An entry of [context.parserInfo]; an object, hence truthy. *)
Record ParserInfo : Type := mkParserInfo { parser_id : string }.

(** The names every plain object inherits from [Object.prototype]; the value
    found under each of them is a function or an object, hence truthy. *)
Definition objectPrototypeNames : list string :=
  ["constructor"; "__proto__"; "hasOwnProperty"; "isPrototypeOf";
   "propertyIsEnumerable"; "toLocaleString"; "toString"; "valueOf";
   "__defineGetter__"; "__defineSetter__"; "__lookupGetter__"; "__lookupSetter__"].

(** What a property access [object[name]] finds on a plain object used as a
    map: an entry of the object itself, or else what the object inherits
    under that name; [None] stands for [undefined]. *)
Inductive Property : Type :=
  | OwnEntry (parser : ParserInfo)
  | Inherited (name : string).

Definition getProperty (object : gmap string ParserInfo) (name : string) : option Property :=
  match object !! name with
  | Some parser => Some (OwnEntry parser)
  | None => if bool_decide (name ∈ objectPrototypeNames) then Some (Inherited name) else None
  end.

Record EndpointContext : Type := mkEndpointContext {
  parserInfo : gmap string ParserInfo;
}.

(** The collaborators outside the sources: the directory [withTempDir] makes
    and the outcome of [invokeParser(parserName, args)], which resolves with
    the parser's result or rejects. *)
Record World : Type := mkWorld {
  tempDir : string;
  parserOutcome : string → list string → Result string;
}.

Definition invokeParser (w : World) (parserName : string) (args : list string) : Eff string :=
  ([InvokeParser parserName args], parserOutcome w parserName args).

(** Modelled from the spec: [withTempDir] of [../util] is not part of the
    sources; the temporary directory is scoped, created before the callback
    runs and removed after it, whether the callback succeeded or failed. *)
Definition withTempDir {A} (w : World) (callback : string → Eff A) : Eff A :=
  let dir := tempDir w in
  let '(tr, r) := callback dir in
  ((CreateTempDir dir :: tr ++ [RemoveTempDir dir])%list, r).

(** [file.name] on an array element, which is [undefined] when the element is
    missing. *)
Definition nameOf (file : option UploadedFile.t) : Eff string :=
  match file with
  | Some file => ret (UploadedFile.name file)
  | None => throw (TypeError "Cannot read properties of undefined (reading 'name')")
  end.

(** [files.map((file) => file.mv(path.join(dir, file.name.replace(/:/gi, '/'))))];
    the outcomes of the moves are settled and dropped by [Promise.allSettled]. *)
Fixpoint mvAll (dir : string) (files : list (option UploadedFile.t)) : Eff unit :=
  match files with
  | [] => ret tt
  | file :: rest =>
      do name <- nameOf file;
      do _ <- emit (Mv name (Path.join [dir; Js.replaceAll ":" "/" name]));
      mvAll dir rest
  end.

Definition stageAndValidate (w : World) (parserName : string)
    (files : list (option UploadedFile.t)) (dir : string) : Eff string :=
  do first <- nameOf (mjoin (head files));
  let rootDir := Js.split "/" (Js.replaceAll ":" "/" first) in
  do _ <- mvAll dir files;
  invokeParser w parserName
    ["validate-files"; "--folder";
     Js.escapeWhitespace (Path.join [dir; default "" (head rootDir)])].

Definition parserFileValidation (context : EndpointContext) (w : World) (req : Request)
    : Eff Response :=
  let parserName := params_parserName req in
  match getProperty (parserInfo context) parserName with
  | None => ret (mkResponse 400 (Msg ("Parser " +:+ parserName +:+ " is not available")))
  | Some parser =>
      match files req with
      | None => ret (mkResponse 500 (Msg "No files provided"))
      | Some field =>
          let files :=
            match field with
            | FileList files => Some <$> files
            | OneFile file => [Some file]
            | NoFile => [None]
            end in
          do validated <- withTempDir w (stageAndValidate w parserName files);
          ret (mkResponse 200 (Validated validated))
      end
  end.

(** The move issued for a file, and the arguments the parser is invoked with
    when [first] is the first of the files. *)
Definition mvOf (dir : string) (file : UploadedFile.t) : Event :=
  Mv (UploadedFile.name file)
    (Path.join [dir; Js.replaceAll ":" "/" (UploadedFile.name file)]).

Definition rootOf (first : UploadedFile.t) : string :=
  default "" (head (Js.split "/" (Js.replaceAll ":" "/" (UploadedFile.name first)))).

Definition validateArgs (dir : string) (first : UploadedFile.t) : list string :=
  ["validate-files"; "--folder"; Js.escapeWhitespace (Path.join [dir; rootOf first])].

(** Observers of a trace of events. *)
Definition isCreate (ev : Event) : bool :=
  match ev with CreateTempDir _ => true | _ => false end.
Definition isRemove (ev : Event) : bool :=
  match ev with RemoveTempDir _ => true | _ => false end.
Definition isInvoke (ev : Event) : bool :=
  match ev with InvokeParser _ _ => true | _ => false end.

End ParserEndpoint.

(** ** The comments list *)

Module CommentsList.

Inductive Icon : Type := StarFilled16 | Hashtag16 | Playlist16 | User16.

Record PresentationItemModel : Type := mkPresentationItem {
  id : string;
  key : string;
  commandCount : nat;
  count : nat;
}.

Definition rowTitle (presentationItem : PresentationItemModel) : string :=
  let key := key presentationItem in
  if bool_decide (String.get 0 key = Some "#"%char) then Js.sliceFrom 1 key
  else if bool_decide (Js.slice 0 5 key = "user-") then Js.sliceFrom 5 key
  else key.

Definition getIcon (itemId : string) : Icon :=
  if bool_decide (itemId = "favorited") then StarFilled16
  else if bool_decide (itemId = "procedural") then Playlist16
  else if bool_decide (Js.slice 0 5 itemId = "user-") then User16
  else Hashtag16.

(** The leading [CarbonIcon] of a row, and whether it takes the disabled text
    colour. *)
Record CarbonIcon : Type := mkCarbonIcon {
  icon : Icon;
  disabledColor : bool;
}.

(** One [InfoRow]: the leading icons, the [Txt] of the title with its
    switches, and the two counters. *)
Record InfoRow : Type := mkInfoRow {
  leading : list CarbonIcon;
  bold : bool;
  muted : bool;
  italic : bool;
  title : string;
  commands : nat;
  comments : nat;
}.

Definition renderRow (presentationItem : PresentationItemModel) : InfoRow :=
  let id := id presentationItem in
  mkInfoRow
    (if bool_decide (id ≠ "all")
     then [mkCarbonIcon (getIcon id) (bool_decide (id = "procedural"))]
     else [])
    (bool_decide (id ∈ ["all"; "favorited"]))
    (bool_decide (id = "procedural"))
    (bool_decide (id = "procedural"))
    (rowTitle presentationItem)
    (commandCount presentationItem)
    (count presentationItem).

(** [data?.presentationItems?.map(...)] *)
Definition render (presentationItems : option (list PresentationItemModel)) : list InfoRow :=
  match presentationItems with
  | Some items => renderRow <$> items
  | None => []
  end.

End CommentsList.

(** ** The other resolvers *)

Module ParseResolver.

(** A command sent to the messenger machine:
    [{ type: 'PARSE_CAMPAIGN', campaignId, context }]. *)
Inductive Message : Type :=
  | PARSE_CAMPAIGN (campaignId : string).

(** What [serversParse] reaches through [ctx] beyond the databases: the
    blue-team switch [ctx.config.blueTeam] and the messages sent to
    [ctx.messengerMachine], latest first. *)
Record ParseContext : Type := mkParseContext {
  base : Context;
  blueTeam : bool;
  sent : list Message;
}.

Definition serversParse (ctx : ParseContext) (campaignId : string)
    : Result (bool * ParseContext) :=
  if blueTeam ctx then Fail (Exception "Parsing cannot be invoked from blue team mode")
  else
    let* _ := connectToProjectEmOrFail campaignId (base ctx) in
    Ok (true, mkParseContext (base ctx) (blueTeam ctx) (PARSE_CAMPAIGN campaignId :: sent ctx)).

End ParseResolver.

Module FolderResolver.

(** [em.persistAndFlush(entity)] for an entity that is new: a row is added. *)
Definition persistNew (server : Server.t) (db : ProjectDb) : ProjectDb :=
  mkProjectDb (servers_tbl db ++ [server])%list (beacons_tbl db) (hosts_tbl db).

(** [new Server({ name, parsingPath: path })]: the constructor of the entity
    class is not part of the sources; [blank] is the entity it makes before
    the two given fields are set (its fresh id and its defaults). *)
Definition newServer (blank : Server.t) (name path : string) : Server.t :=
  Server.set_parsingPath path (Server.set_name name blank).

Definition serverFolderCreate (ctx : Context) (campaignId name path : string)
    (blank : Server.t) : Result (Server.t * Context) :=
  let* em := connectToProjectEmOrFail campaignId ctx in
  let server := newServer blank name path in
  let em := persistNew server em in
  Ok (server, set_project campaignId em ctx).

End FolderResolver.

Module JsInverse.

(** The inverse of [Js.escapeWhitespace]: a backslash that stands right
    before a whitespace character is dropped. *)
Fixpoint unescapeWhitespace (s : string) : string :=
  match s with
  | EmptyString => EmptyString
  | String c s' =>
      match s' with
      | String d _ =>
          if bool_decide (c = Js.backslash) && Js.isWhitespace d
          then unescapeWhitespace s'
          else String c (unescapeWhitespace s')
      | EmptyString => String c EmptyString
      end
  end.

End JsInverse.

(** ** Sample data *)

Module Sample.
Import ServerResolvers.

(** A campaign with three servers.  The first is visible; one of its two
    beacons is hidden on its own, the other has no host.  The second is
    visible and its only beacon is hidden.  The third is hidden, and so are
    its beacon and that beacon's host. *)
Definition db : ProjectDb :=
  mkProjectDb
    [Server.mk "s1" "A" "B" "C" false HTTP;
     Server.mk "s2" "D" "E" "F" false SMB;
     Server.mk "s3" "G" "H" "I" true DNS]
    [Beacon.mk "b1" "one" true (Some "h1") "s1";
     Beacon.mk "b2" "two" false None "s1";
     Beacon.mk "b3" "three" true (Some "h2") "s2";
     Beacon.mk "b4" "four" true (Some "h3") "s3"]
    [Host.mk "h1" "alpha" false true;
     Host.mk "h2" "beta" true false;
     Host.mk "h3" "gamma" true false].

Definition ctx : Context :=
  mkContext (Some (mkMainDb ["alice"] [Campaign.mk "c1" None])) {["c1" := db]} [] false.

(** The same context with a main database that refuses the update of the
    campaign. *)
Definition ctxReadOnly : Context :=
  mkContext (Some (mkMainDb ["alice"] [Campaign.mk "c1" None])) {["c1" := db]} [] true.

(** An endpoint that knows one parser, and a world in which the temporary
    directory is [/tmp/redeye-1] and the parser answers. *)
Definition context : ParserEndpoint.EndpointContext :=
  ParserEndpoint.mkEndpointContext
    {["cobalt-strike-parser" := ParserEndpoint.mkParserInfo "cobalt-strike-parser"]}.

Definition world : ParserEndpoint.World :=
  ParserEndpoint.mkWorld "/tmp/redeye-1" (λ _ _, Ok "valid").


Definition upload (names : list string) : ParserEndpoint.Request :=
  ParserEndpoint.mkRequest "cobalt-strike-parser"
    (Some (ParserEndpoint.FileList (UploadedFile.mk <$> names))).
End Sample.

(* ================================================================== *)
(** * Properties *)

(** ** The entity manager *)

Section em_facts.
Context {A : Type}.
Implicit Types (tbl : list A) (w : A → bool) (f : A → A).

Lemma find_elem w tbl x : x ∈ Em.find w tbl ↔ w x = true ∧ x ∈ tbl.
Proof.
  unfold Em.find. rewrite list_elem_of_filter, Is_true_true. tauto.
Qed.

Lemma findOne_Some w tbl x : Em.findOne w tbl = Some x → w x = true ∧ x ∈ tbl.
Proof.
  unfold Em.findOne. intros H. apply head_Some_elem_of in H.
  by apply find_elem.
Qed.

(** A loop of updates that selects by one loop item each round amounts to
    one update that selects by any of the items. *)
Lemma nativeUpdate_foldl {B} (sel : B → A → bool) f (items : list B) tbl :
  (∀ x, f (f x) = f x) →
  (∀ b x, sel b (f x) = sel b x) →
  foldl (λ t b, Em.nativeUpdate (sel b) f t) tbl items
  = Em.nativeUpdate (λ x, existsb (λ b, sel b x) items) f tbl.
Proof.
  intros Hidem Hsel. revert tbl.
  induction items as [|b items IH]; intros tbl; cbn.
  - unfold Em.nativeUpdate. by rewrite list_fmap_id.
  - rewrite IH. unfold Em.nativeUpdate.
    rewrite <- list_fmap_compose. apply list_fmap_ext. intros _ x _. cbn.
    destruct (sel b x); cbn; [|done].
    assert (existsb (λ b0, sel b0 (f x)) items = existsb (λ b0, sel b0 x) items) as ->.
    { clear IH. induction items as [|c items IH]; cbn; [done|]. by rewrite Hsel, IH. }
    rewrite Hidem. by destruct (existsb _ items).
Qed.
End em_facts.

(** ** toggleServerHidden *)

Module ToggleFacts.
Import ServerResolvers.

(** The loop of [toggleServerHidden] in closed form. *)
Lemma toggle_loop v (bs : list Beacon.t) db :
  foldl (toggleBeacon v) db bs
  = mkProjectDb (servers_tbl db)
      (Em.nativeUpdate (λ r, existsb (λ b, Em.idIs Beacon.id (Some (Beacon.id b)) r) bs)
         (Beacon.set_hidden v) (beacons_tbl db))
      (Em.nativeUpdate (λ h, existsb (λ b, Em.idIs Host.id (Beacon.host b) h) bs)
         (Host.set_hidden v) (hosts_tbl db)).
Proof.
  rewrite <- (nativeUpdate_foldl (λ b, Em.idIs Beacon.id (Some (Beacon.id b)))) by done.
  rewrite <- (nativeUpdate_foldl (λ b, Em.idIs Host.id (Beacon.host b)));
    [|done|by intros b x; destruct (Beacon.host b)].
  revert db. induction bs as [|b bs IH]; intros db; cbn; [by destruct db|].
  by rewrite IH.
Qed.

Lemma existsb_intro {B} (p : B → bool) (l : list B) x : x ∈ l → p x = true → existsb p l = true.
Proof. intros Hx Hp. apply existsb_exists. exists x. by rewrite <- list_elem_of_In. Qed.

(** What a successful call did to the campaign's database. *)
Lemma toggleServerHidden_inv ctx campaignId serverId r ctx' :
  toggleServerHidden ctx campaignId serverId = Ok (r, ctx') →
  ∃ db server,
    projects ctx !! campaignId = Some db
    ∧ Em.findOne (Em.idIs Server.id (Some serverId)) (servers_tbl db) = Some server
    ∧ Server.id server = serverId
    ∧ r = mkLoaded (Server.set_hidden (negb (Server.hidden server)) server)
            (beacons_init anyRow db server)
    ∧ ctx' = signal (ForkProject campaignId)
               (set_project campaignId
                  (Em.persistAndFlush (entity r)
                     (foldl (toggleBeacon (negb (Server.hidden server))) db (beacons r))) ctx).
Proof.
  unfold toggleServerHidden, connectToProjectEmOrFail.
  destruct (projects ctx !! campaignId) as [db|] eqn:Hdb; [|done]. cbn.
  destruct (Em.findOne _ (servers_tbl db)) as [server|] eqn:Hs; [|done]. cbn.
  intros [= <- <-]. exists db, server. split_and!; try done.
  apply findOne_Some in Hs as [Hs _]. by apply bool_decide_eq_true in Hs.
Qed.

(** The call succeeds whenever the campaign and the server exist. *)
Lemma toggleServerHidden_ok ctx campaignId serverId db server :
  projects ctx !! campaignId = Some db →
  Em.findOne (Em.idIs Server.id (Some serverId)) (servers_tbl db) = Some server →
  ∃ r ctx', toggleServerHidden ctx campaignId serverId = Ok (r, ctx').
Proof.
  intros Hdb Hs. unfold toggleServerHidden, connectToProjectEmOrFail.
  rewrite Hdb. cbn. rewrite Hs. cbn. eauto.
Qed.
End ToggleFacts.

Module ToggleEffect.
Import ServerResolvers ToggleFacts.

Lemma find_ext {A} (p q : A → bool) tbl : (∀ x, p x = q x) → Em.find p tbl = Em.find q tbl.
Proof.
  intros H. unfold Em.find. apply list_filter_iff. intros x. by rewrite H.
Qed.

Lemma find_nativeUpdate {A} (p w : A → bool) f tbl :
  (∀ x, p (f x) = p x) →
  Em.find p (Em.nativeUpdate w f tbl) = Em.nativeUpdate w f (Em.find p tbl).
Proof.
  intros Hp. unfold Em.find, Em.nativeUpdate.
  induction tbl as [|x tbl IH]; [done|].
  rewrite fmap_cons, !filter_cons.
  assert (p (if w x then f x else x) = p x) as -> by (destruct (w x); auto).
  destruct (decide (p x)); [|done]. by rewrite fmap_cons, IH.
Qed.

Lemma nativeUpdate_all {A} (w : A → bool) f tbl :
  (∀ x, x ∈ tbl → w x = true) → Em.nativeUpdate w f tbl = f <$> tbl.
Proof.
  intros H. unfold Em.nativeUpdate. apply list_fmap_ext. intros i x Hx.
  rewrite H; [done|]. by eapply list_elem_of_lookup_2.
Qed.

Lemma findOne_replace {A} (p : A → bool) (new : A) tbl old :
  Em.findOne p tbl = Some old → p new = true →
  Em.findOne p (Em.nativeUpdate p (λ _, new) tbl) = Some new.
Proof.
  intros Hold Hnew. unfold Em.findOne, Em.find, Em.nativeUpdate in *.
  induction tbl as [|x tbl IH]; [done|].
  rewrite fmap_cons. rewrite filter_cons in Hold. rewrite filter_cons.
  destruct (p x) eqn:Hx; cbn in *.
  - rewrite Hnew. by rewrite decide_True.
  - rewrite Hx. rewrite decide_False in Hold by auto.
    rewrite decide_False by auto. auto.
Qed.

Lemma existsb_pointwise {A} (p q : A → bool) l :
  (∀ x, p x = q x) → existsb p l = existsb q l.
Proof. intros H. induction l as [|x l IH]; cbn; [done|]. by rewrite H, IH. Qed.

Lemma existsb_fmap {A B} (g : A → B) (p : B → bool) l :
  existsb p (g <$> l) = existsb (p ∘ g) l.
Proof. induction l as [|x l IH]; cbn; [done|]. by rewrite IH. Qed.

Lemma beacons_init_beaconsOf db server :
  beacons_init anyRow db server = beaconsOf db (Server.id server).
Proof.
  unfold beacons_init, beaconsOf, anyRow. apply find_ext. intros b. apply andb_true_r.
Qed.

(** The database a successful call leaves: the server's row carries the
    negated flag, the server's beacons and their hosts carry that flag too
    and are otherwise as before. *)
Lemma toggle_effect ctx campaignId serverId r ctx' :
  toggleServerHidden ctx campaignId serverId = Ok (r, ctx') →
  ∃ db server db',
    projects ctx !! campaignId = Some db
    ∧ serverOf db serverId = Some server
    ∧ projects ctx' !! campaignId = Some db'
    ∧ entity r = Server.set_hidden (negb (Server.hidden server)) server
    ∧ beacons r = beaconsOf db serverId
    ∧ serverOf db' serverId = Some (entity r)
    ∧ beaconsOf db' serverId = Beacon.set_hidden (Server.hidden (entity r)) <$> beaconsOf db serverId
    ∧ hostsOf db' serverId = Host.set_hidden (Server.hidden (entity r)) <$> hostsOf db serverId.
Proof.
  intros H. apply toggleServerHidden_inv in H as (db & server & Hdb & Hs & Hid & -> & ->).
  cbn [entity beacons]. rewrite beacons_init_beaconsOf, Hid, toggle_loop.
  set (v := negb (Server.hidden server)).
  set (server' := Server.set_hidden v server).
  set (db' := Em.persistAndFlush _ _).
  assert (beaconsOf db' serverId = Beacon.set_hidden v <$> beaconsOf db serverId) as Hbe.
  { unfold beaconsOf at 1. cbn [db' beacons_tbl Em.persistAndFlush].
    rewrite find_nativeUpdate by done.
    apply nativeUpdate_all. intros b Hb.
    apply (existsb_intro _ _ b); [done|]. cbn. by apply bool_decide_eq_true. }
  exists db, server, db'. split_and!; try done.
  - cbn. apply lookup_insert_eq.
  - (* the stored row *)
    unfold serverOf, Em.persistAndFlush. cbn [db' servers_tbl Em.persistAndFlush].
    assert (Server.id server' = serverId) as -> by done.
    apply (findOne_replace _ _ _ server); [done|].
    cbn. by apply bool_decide_eq_true.
  - (* the hosts *)
    unfold hostsOf at 1. rewrite Hbe. cbn [db' hosts_tbl Em.persistAndFlush].
    rewrite (find_ext _ (λ h, existsb (λ b, Em.idIs Host.id (Beacon.host b) h)
                                (beaconsOf db serverId))) by (intros h; apply existsb_fmap).
    rewrite find_nativeUpdate.
    + apply nativeUpdate_all. intros h Hh. by apply find_elem in Hh as [Hh _].
    + intros h. apply existsb_pointwise. intros b. by destruct (Beacon.host b).
Qed.
End ToggleEffect.

Module ToggleTheorems.
Import ServerResolvers ToggleFacts ToggleEffect.

(** C1. On an existing campaign and server [toggleServerHidden] completes
    successfully, and then the server's hidden flag is the negation of its
    value before the call (in the returned entity and in the stored row), the
    update loop ran over every beacon associated with the server, and every
    such beacon and each such beacon's host carries the server's new flag,
    being otherwise the row it was before. *)
Theorem toggleServerHidden_propagates ctx campaignId serverId db server :
  projects ctx !! campaignId = Some db →
  serverOf db serverId = Some server →
  ∃ r ctx' db',
    toggleServerHidden ctx campaignId serverId = Ok (r, ctx')
    ∧ projects ctx' !! campaignId = Some db'
    ∧ Server.hidden (entity r) = negb (Server.hidden server)
    ∧ serverOf db' serverId = Some (entity r)
    ∧ beacons r = beaconsOf db serverId
    ∧ beaconsOf db' serverId
      = Beacon.set_hidden (Server.hidden (entity r)) <$> beaconsOf db serverId
    ∧ hostsOf db' serverId
      = Host.set_hidden (Server.hidden (entity r)) <$> hostsOf db serverId
    ∧ Forall (λ b, Beacon.hidden b = Server.hidden (entity r)) (beaconsOf db' serverId)
    ∧ Forall (λ h, Host.hidden h = Server.hidden (entity r)) (hostsOf db' serverId).
Proof.
  intros Hdb Hs.
  destruct (toggleServerHidden_ok ctx campaignId serverId db server Hdb Hs) as (r & ctx' & H).
  pose proof (toggle_effect _ _ _ _ _ H)
    as (db0 & server0 & db' & Hdb0 & Hs0 & Hdb' & Hr & Hbs & Hs' & Hb & Hh).
  assert (db0 = db) as -> by congruence.
  assert (server0 = server) as -> by congruence.
  exists r, ctx', db'. split_and!; try done.
  - by rewrite Hr.
  - rewrite Hb. apply Forall_fmap, Forall_true. done.
  - rewrite Hh. apply Forall_fmap, Forall_true. done.
Qed.

Lemma toggleServerHidden_propagates_witness :
  projects Sample.ctx !! "c1" = Some Sample.db
  ∧ serverOf Sample.db "s1" = Some (Server.mk "s1" "A" "B" "C" false HTTP)
  ∧ ∃ r ctx' db',
      toggleServerHidden Sample.ctx "c1" "s1" = Ok (r, ctx')
      ∧ projects ctx' !! "c1" = Some db'
      ∧ Server.hidden (entity r) = true
      ∧ Forall (λ b, Beacon.hidden b = true) (beaconsOf db' "s1")
      ∧ Forall (λ h, Host.hidden h = true) (hostsOf db' "s1").
Proof.
  split; [reflexivity|]. split; [reflexivity|].
  destruct (toggleServerHidden_propagates Sample.ctx "c1" "s1" Sample.db
              (Server.mk "s1" "A" "B" "C" false HTTP) eq_refl eq_refl)
    as (r & ctx' & db' & Hcall & Hdb' & Hr & _ & _ & _ & _ & Hb & Hh).
  exists r, ctx', db'. cbn in Hr. rewrite Hr in Hb, Hh. by split_and!.
Defined.

(** C2, as stated, fails: a beacon hidden on its own under a visible server
    is visible after two calls. *)
Lemma toggleServerHidden_twice_counterexample :
  ∃ r ctx2 db2,
    toggleServerHiddenTwice Sample.ctx "c1" "s1" = Ok (r, ctx2)
    ∧ projects Sample.ctx !! "c1" = Some Sample.db
    ∧ projects ctx2 !! "c1" = Some db2
    ∧ hiddenFlags Sample.db "s1" = (Some false, [true; false], [false])
    ∧ hiddenFlags db2 "s1" = (Some false, [false; false], [false])
    ∧ hiddenFlags db2 "s1" ≠ hiddenFlags Sample.db "s1".
Proof.
  eexists _, _, _. split_and!; [reflexivity..|]. vm_compute. discriminate.
Qed.

(** C2, amended. On an existing campaign and server two calls in succession
    complete successfully; they restore the server (its hidden flag and its
    row) and leave every associated beacon and every such beacon's host with
    the hidden value the server had before the first call, all else about
    them as before.  Where the beacons and hosts carried the server's flag
    before the first call, they too are restored. *)
Theorem toggleServerHidden_twice ctx campaignId serverId db server :
  projects ctx !! campaignId = Some db →
  serverOf db serverId = Some server →
  ∃ r ctx2 db2,
    toggleServerHiddenTwice ctx campaignId serverId = Ok (r, ctx2)
    ∧ projects ctx2 !! campaignId = Some db2
    ∧ entity r = server
    ∧ serverOf db2 serverId = Some server
    ∧ beaconsOf db2 serverId = Beacon.set_hidden (Server.hidden server) <$> beaconsOf db serverId
    ∧ hostsOf db2 serverId = Host.set_hidden (Server.hidden server) <$> hostsOf db serverId
    ∧ (Forall (λ b, Beacon.hidden b = Server.hidden server) (beaconsOf db serverId) →
       Forall (λ h, Host.hidden h = Server.hidden server) (hostsOf db serverId) →
       beaconsOf db2 serverId = beaconsOf db serverId
       ∧ hostsOf db2 serverId = hostsOf db serverId
       ∧ hiddenFlags db2 serverId = hiddenFlags db serverId).
Proof.
  intros Hdb Hs. unfold toggleServerHiddenTwice.
  destruct (toggleServerHidden_ok ctx campaignId serverId db server Hdb Hs) as (r1 & ctx1 & H1).
  rewrite H1.
  pose proof (toggle_effect _ _ _ _ _ H1)
    as (db0 & server0 & db1 & Hdb0 & Hs0 & Hdb1 & Hr1 & _ & Hs1 & Hb1 & Hh1).
  assert (db0 = db) as -> by congruence.
  assert (server0 = server) as -> by congruence.
  destruct (toggleServerHidden_ok ctx1 campaignId serverId db1 (entity r1) Hdb1 Hs1)
    as (r & ctx2 & H2).
  pose proof (toggle_effect _ _ _ _ _ H2)
    as (db1' & server1 & db2 & Hdb1' & Hs1' & Hdb2 & Hr2 & _ & Hs2 & Hb2 & Hh2).
  assert (db1' = db1) as -> by congruence.
  assert (server1 = entity r1) as -> by congruence.
  assert (entity r = server) as Hr.
  { rewrite Hr2, Hr1. destruct server as [? ? ? ? h ?]. cbn. by rewrite negb_involutive. }
  rewrite Hr in *. clear Hr2.
  assert (beaconsOf db2 serverId
          = Beacon.set_hidden (Server.hidden server) <$> beaconsOf db serverId) as Hb.
  { rewrite Hb2, Hb1, <- list_fmap_compose. done. }
  assert (hostsOf db2 serverId
          = Host.set_hidden (Server.hidden server) <$> hostsOf db serverId) as Hh.
  { rewrite Hh2, Hh1, <- list_fmap_compose. done. }
  exists r, ctx2, db2. split_and!; try done.
  intros Fb Fh.
  assert (beaconsOf db2 serverId = beaconsOf db serverId) as Hb'.
  { rewrite Hb. rewrite <- (list_fmap_id (beaconsOf db serverId)) at 2.
    apply Forall_fmap_ext_1. eapply Forall_impl; [exact Fb|].
    intros [] E. cbn in *. by rewrite E. }
  assert (hostsOf db2 serverId = hostsOf db serverId) as Hh'.
  { rewrite Hh. rewrite <- (list_fmap_id (hostsOf db serverId)) at 2.
    apply Forall_fmap_ext_1. eapply Forall_impl; [exact Fh|].
    intros [] E. cbn in *. by rewrite E. }
  split_and!; try done.
  unfold hiddenFlags. by rewrite Hb', Hh', Hs2, Hs.
Qed.

Lemma toggleServerHidden_twice_witness :
  projects Sample.ctx !! "c1" = Some Sample.db
  ∧ serverOf Sample.db "s3" = Some (Server.mk "s3" "G" "H" "I" true DNS)
  ∧ hiddenFlags Sample.db "s3" = (Some true, [true], [true])
  ∧ ∃ r ctx2 db2,
      toggleServerHiddenTwice Sample.ctx "c1" "s3" = Ok (r, ctx2)
      ∧ projects ctx2 !! "c1" = Some db2
      ∧ hiddenFlags db2 "s3" = hiddenFlags Sample.db "s3".
Proof.
  split; [reflexivity|]. split; [reflexivity|]. split; [reflexivity|].
  destruct (toggleServerHidden_twice Sample.ctx "c1" "s3" Sample.db
              (Server.mk "s3" "G" "H" "I" true DNS) eq_refl eq_refl)
    as (r & ctx2 & db2 & Hcall & Hdb2 & _ & _ & _ & _ & Hsync).
  exists r, ctx2, db2. split_and!; [done..|].
  apply Hsync; cbn; by repeat constructor.
Defined.

End ToggleTheorems.

(** ** servers *)

Module ServersTheorems.
Import ServerResolvers ToggleFacts.

(** What a successful call with [hidden = false] returns. *)
Lemma servers_visible_inv ctx campaignId username out ctx' :
  servers ctx campaignId username false = Ok (out, ctx') →
  ∃ db,
    projects ctx !! campaignId = Some db
    ∧ out = (λ server,
              mkLoaded server
                (beacons_init (λ b, bool_decide (Beacon.hidden b = false)) db server))
            <$> Em.find (serversWhere false db) (servers_tbl db).
Proof.
  unfold servers, connectToProjectEmOrFail, getMainEmOrFail.
  destruct (projects ctx !! campaignId) as [db|]; [|done]. cbn.
  destruct (mainDb ctx) as [em|]; [|done]. cbn.
  destruct (Em.findOne _ (operators_tbl em)); cbn; intros [= <- <-]; eauto.
Qed.

(** The call succeeds whenever the campaign and the main connection exist. *)
Lemma servers_ok ctx campaignId username hidden db em :
  projects ctx !! campaignId = Some db → mainDb ctx = Some em →
  ∃ out ctx', servers ctx campaignId username hidden = Ok (out, ctx').
Proof.
  intros Hdb Hem. unfold servers, connectToProjectEmOrFail, getMainEmOrFail.
  rewrite Hdb, Hem. cbn. destruct (Em.findOne _ (operators_tbl em)); cbn; eauto.
Qed.

Lemma serversWhere_visible db s :
  serversWhere false db s = true ↔
  Server.hidden s = false
  ∧ ∃ b, b ∈ beacons_tbl db ∧ Beacon.server b = Server.id s ∧ Beacon.hidden b = false.
Proof.
  unfold serversWhere. rewrite andb_true_iff, bool_decide_eq_true, existsb_exists.
  split; intros [Hs (b & Hb & Hw)]; (split; [done|]); exists b.
  - apply andb_true_iff in Hw as [?%bool_decide_eq_true ?%bool_decide_eq_true].
    by rewrite list_elem_of_In.
  - destruct Hw as [Hw1 Hw2]. rewrite <- list_elem_of_In. split; [done|].
    apply andb_true_iff. by rewrite !bool_decide_eq_true.
Qed.

(** C3. On an existing campaign [servers] with [hidden = false] returns a
    list that holds no server whose hidden flag is true, and the loaded
    beacons collection of a server in the list holds no beacon whose hidden
    flag is true. *)
Theorem servers_visible_only ctx campaignId username db em :
  projects ctx !! campaignId = Some db →
  mainDb ctx = Some em →
  ∃ out ctx',
    servers ctx campaignId username false = Ok (out, ctx')
    ∧ Forall (λ l, Server.hidden (entity l) = false
                   ∧ Forall (λ b, Beacon.hidden b = false) (beacons l)) out.
Proof.
  intros Hdb Hem.
  destruct (servers_ok ctx campaignId username false db em Hdb Hem) as (out & ctx' & H).
  exists out, ctx'. split; [done|].
  apply servers_visible_inv in H as (db' & _ & ->).
  apply Forall_fmap, Forall_forall. intros s Hs. cbn. split.
  - apply find_elem in Hs as [Hs _]. by apply serversWhere_visible in Hs as [Hs _].
  - apply Forall_forall. intros b Hb. unfold beacons_init in Hb.
    apply find_elem in Hb as [Hb _].
    by apply andb_true_iff in Hb as [_ ?%bool_decide_eq_true].
Qed.

Lemma servers_visible_only_witness :
  projects Sample.ctx !! "c1" = Some Sample.db
  ∧ mainDb Sample.ctx = Some (mkMainDb ["alice"] [Campaign.mk "c1" None])
  ∧ ∃ out ctx',
      servers Sample.ctx "c1" "bob" false = Ok (out, ctx')
      ∧ Forall (λ l, Server.hidden (entity l) = false
                     ∧ Forall (λ b, Beacon.hidden b = false) (beacons l)) out.
Proof.
  split; [reflexivity|]. split; [reflexivity|].
  apply (servers_visible_only Sample.ctx "c1" "bob" Sample.db
           (mkMainDb ["alice"] [Campaign.mk "c1" None])); reflexivity.
Defined.

(** C10. With [hidden = false] a server whose own hidden flag is false but
    which has no beacon with [hidden = false] is not in the list [servers]
    returns: the filter asks for a matching beacon. *)
Theorem servers_omits_beaconless ctx campaignId username db em s :
  projects ctx !! campaignId = Some db →
  mainDb ctx = Some em →
  s ∈ servers_tbl db →
  Server.hidden s = false →
  (∀ b, b ∈ beacons_tbl db → Beacon.server b = Server.id s → Beacon.hidden b = true) →
  ∃ out ctx',
    servers ctx campaignId username false = Ok (out, ctx')
    ∧ s ∉ entity <$> out.
Proof.
  intros Hdb Hem _ _ Hnone.
  destruct (servers_ok ctx campaignId username false db em Hdb Hem) as (out & ctx' & H).
  exists out, ctx'. split; [done|].
  apply servers_visible_inv in H as (db' & Hdb' & ->).
  assert (db' = db) as -> by congruence.
  rewrite <- list_fmap_compose. intros (s' & -> & Hin)%list_elem_of_fmap. cbn in *.
  apply find_elem in Hin as [Hw _].
  apply serversWhere_visible in Hw as (_ & b & Hb & Hsrv & Hhid).
  specialize (Hnone b Hb Hsrv). congruence.
Qed.

Lemma servers_omits_beaconless_witness :
  projects Sample.ctx !! "c1" = Some Sample.db
  ∧ mainDb Sample.ctx = Some (mkMainDb ["alice"] [Campaign.mk "c1" None])
  ∧ Server.mk "s2" "D" "E" "F" false SMB ∈ servers_tbl Sample.db
  ∧ ∃ out ctx',
      servers Sample.ctx "c1" "bob" false = Ok (out, ctx')
      ∧ Server.mk "s2" "D" "E" "F" false SMB ∉ entity <$> out.
Proof.
  assert (Server.mk "s2" "D" "E" "F" false SMB ∈ servers_tbl Sample.db) as Hin.
  { cbn. apply list_elem_of_further, list_elem_of_here. }
  split; [reflexivity|]. split; [reflexivity|]. split; [exact Hin|].
  apply (servers_omits_beaconless Sample.ctx "c1" "bob" Sample.db
           (mkMainDb ["alice"] [Campaign.mk "c1" None]));
    [reflexivity | reflexivity | exact Hin | reflexivity |].
  intros b Hb Hs. cbn in Hb.
  repeat (apply elem_of_cons in Hb as [->|Hb]; [by (done || discriminate Hs)|]).
  by apply elem_of_nil in Hb.
Defined.

End ServersTheorems.

(** ** serverUpdate and updateServerMetadata *)

Module UpdateTheorems.
Import ServerResolvers ToggleEffect.

Lemma persistAndFlush_serverOf db serverId server server' :
  serverOf db serverId = Some server → Server.id server' = Server.id server →
  serverOf (Em.persistAndFlush server' db) serverId = Some server'.
Proof.
  intros Hs Hid. unfold serverOf, Em.persistAndFlush in *. cbn [servers_tbl].
  pose proof (findOne_Some _ _ _ Hs) as [Hw _]. cbn in Hw.
  apply bool_decide_eq_true in Hw.
  assert (Server.id server' = serverId) as -> by congruence.
  apply (findOne_replace _ _ _ server); [done|].
  cbn. apply bool_decide_eq_true. congruence.
Qed.

(** C4. On an existing server [serverUpdate] succeeds, and the returned and
    stored server has each of [parsingPath], [name] and [displayName] taken
    from the input where the input supplies a non-empty value and left as it
    was otherwise; [id], [hidden] and [meta.type] and the beacon and host
    tables are left as they were.  In particular a field the input does not
    supply is unchanged, and on a server with name "A", displayName "B",
    parsingPath "C" the input [{name: "X"}] yields name "X", displayName "B",
    parsingPath "C". *)
Theorem serverUpdate_partial ctx campaignId serverId input db server :
  projects ctx !! campaignId = Some db →
  serverOf db serverId = Some server →
  ∃ server' ctx' db',
    serverUpdate ctx campaignId serverId input = Ok (server', ctx')
    ∧ projects ctx' !! campaignId = Some db'
    ∧ serverOf db' serverId = Some server'
    ∧ server' = Server.mk (Server.id server)
                  (default (Server.name server) (truthy (ServerUpdateInput.name input)))
                  (default (Server.displayName server) (truthy (ServerUpdateInput.displayName input)))
                  (default (Server.parsingPath server) (truthy (ServerUpdateInput.parsingPath input)))
                  (Server.hidden server) (Server.meta_type server)
    ∧ (ServerUpdateInput.name input = None → Server.name server' = Server.name server)
    ∧ (ServerUpdateInput.displayName input = None → Server.displayName server' = Server.displayName server)
    ∧ (ServerUpdateInput.parsingPath input = None → Server.parsingPath server' = Server.parsingPath server)
    ∧ beacons_tbl db' = beacons_tbl db
    ∧ hosts_tbl db' = hosts_tbl db
    ∧ (input = ServerUpdateInput.mk None (Some "X") None →
       Server.name server = "A" → Server.displayName server = "B" →
       Server.parsingPath server = "C" →
       Server.name server' = "X" ∧ Server.displayName server' = "B"
       ∧ Server.parsingPath server' = "C").
Proof.
  intros Hdb Hs.
  unfold serverUpdate, connectToProjectEmOrFail. rewrite Hdb. cbn.
  fold (serverOf db serverId). rewrite Hs. cbn.
  eexists _, _, _. split; [reflexivity|].
  assert (∀ s0 o (set : string → Server.t → Server.t),
            (∀ v s, Server.id (set v s) = Server.id s) →
            Server.id (match o with Some v => set v s0 | None => s0 end) = Server.id s0)
    as Hid by (intros s0 [v|] set Hset; auto).
  split_and!.
  - cbn. apply lookup_insert_eq.
  - apply (persistAndFlush_serverOf _ _ server); [done|].
    rewrite !Hid; auto.
  - destruct server; destruct (truthy (ServerUpdateInput.parsingPath input)),
      (truthy (ServerUpdateInput.name input)), (truthy (ServerUpdateInput.displayName input)); reflexivity.
  - intros ->. cbn.
    by destruct (truthy (ServerUpdateInput.displayName input)), (truthy (ServerUpdateInput.parsingPath input)).
  - intros ->. cbn. by destruct (truthy (ServerUpdateInput.name input)), (truthy (ServerUpdateInput.parsingPath input)).
  - intros ->. cbn. by destruct (truthy (ServerUpdateInput.name input)), (truthy (ServerUpdateInput.displayName input)).
  - done.
  - done.
  - intros -> Hn Hd Hp. cbn. auto.
Qed.

Lemma serverUpdate_partial_witness :
  projects Sample.ctx !! "c1" = Some Sample.db
  ∧ serverOf Sample.db "s1" = Some (Server.mk "s1" "A" "B" "C" false HTTP)
  ∧ ∃ ctx',
      serverUpdate Sample.ctx "c1" "s1" (ServerUpdateInput.mk None (Some "X") None)
      = Ok (Server.mk "s1" "X" "B" "C" false HTTP, ctx').
Proof.
  split; [reflexivity|]. split; [reflexivity|].
  destruct (serverUpdate_partial Sample.ctx "c1" "s1" (ServerUpdateInput.mk None (Some "X") None)
              Sample.db (Server.mk "s1" "A" "B" "C" false HTTP) eq_refl eq_refl)
    as (server' & ctx' & db' & Hcall & _ & _ & -> & _).
  exists ctx'. exact Hcall.
Defined.

(** C5. On an existing server [updateServerMetadata] succeeds.  With only
    [serverType] provided, the server's [displayName] is unchanged and so
    are the beacon and host tables, hence the [displayName] of every beacon
    and host; with only [serverDisplayName] provided, the server's
    [meta.type] is unchanged. *)
Theorem updateServerMetadata_frame ctx serverId campaignId serverDisplayName serverType
    db server :
  projects ctx !! campaignId = Some db →
  serverOf db serverId = Some server →
  ∃ server' ctx' db',
    updateServerMetadata ctx serverId campaignId serverDisplayName serverType
    = Ok (server', ctx')
    ∧ projects ctx' !! campaignId = Some db'
    ∧ serverOf db' serverId = Some server'
    ∧ (serverDisplayName = None →
       Server.displayName server' = Server.displayName server
       ∧ Server.meta_type server' = default (Server.meta_type server) serverType
       ∧ beacons_tbl db' = beacons_tbl db
       ∧ hosts_tbl db' = hosts_tbl db
       ∧ Beacon.displayName <$> beacons_tbl db' = Beacon.displayName <$> beacons_tbl db
       ∧ Host.displayName <$> hosts_tbl db' = Host.displayName <$> hosts_tbl db)
    ∧ (serverType = None →
       Server.meta_type server' = Server.meta_type server
       ∧ Server.displayName server'
         = default (Server.displayName server) (truthy serverDisplayName)).
Proof.
  intros Hdb Hs.
  unfold updateServerMetadata, connectToProjectEmOrFail. rewrite Hdb. cbn.
  fold (serverOf db serverId). rewrite Hs. cbn.
  destruct (truthy serverDisplayName) as [dn|] eqn:Hdn.
  - eexists _, _, _. split; [reflexivity|]. split_and!.
    + cbn. apply lookup_insert_eq.
    + apply (persistAndFlush_serverOf _ _ server).
      * unfold serverOf in *. exact Hs.
      * by destruct serverType.
    + intros ->. discriminate Hdn.
    + by intros ->.
  - eexists _, _, _. split; [reflexivity|]. split_and!.
    + cbn. apply lookup_insert_eq.
    + apply (persistAndFlush_serverOf _ _ server); [done|]. by destruct serverType.
    + intros _. by destruct serverType.
    + by intros ->.
Qed.

Lemma updateServerMetadata_frame_witness :
  projects Sample.ctx !! "c1" = Some Sample.db
  ∧ serverOf Sample.db "s1" = Some (Server.mk "s1" "A" "B" "C" false HTTP)
  ∧ (∃ ctx',
       updateServerMetadata Sample.ctx "s1" "c1" None (Some DNS)
       = Ok (Server.mk "s1" "A" "B" "C" false DNS, ctx')
       ∧ (beacons_tbl <$> projects ctx' !! "c1") = Some (beacons_tbl Sample.db)
       ∧ (hosts_tbl <$> projects ctx' !! "c1") = Some (hosts_tbl Sample.db))
  ∧ (∃ ctx',
       updateServerMetadata Sample.ctx "s1" "c1" (Some "Z") None
       = Ok (Server.mk "s1" "A" "Z" "C" false HTTP, ctx')).
Proof.
  split; [reflexivity|]. split; [reflexivity|]. split.
  - destruct (updateServerMetadata_frame Sample.ctx "s1" "c1" None (Some DNS)
                Sample.db (Server.mk "s1" "A" "B" "C" false HTTP) eq_refl eq_refl)
      as (server' & ctx' & db' & Hcall & Hdb' & _ & Hframe & _).
    destruct (Hframe eq_refl) as (_ & _ & Hb & Hh & _).
    exists ctx'. rewrite Hdb'. cbn. rewrite Hb, Hh. split; [|done].
    rewrite Hcall. vm_compute in Hcall. by injection Hcall as <- _.
  - destruct (updateServerMetadata_frame Sample.ctx "s1" "c1" (Some "Z") None
                Sample.db (Server.mk "s1" "A" "B" "C" false HTTP) eq_refl eq_refl)
      as (server' & ctx' & db' & Hcall & _).
    exists ctx'. rewrite Hcall. vm_compute in Hcall. by injection Hcall as <- _.
Defined.
End UpdateTheorems.

(** ** The parser validation endpoint *)

Module EndpointTheorems.
Import ParserEndpoint.

Lemma getProperty_own object name parser :
  object !! name = Some parser → getProperty object name = Some (OwnEntry parser).
Proof. intros H. unfold getProperty. by rewrite H. Qed.

Lemma getProperty_None object name :
  getProperty object name = None ↔ object !! name = None ∧ name ∉ objectPrototypeNames.
Proof.
  unfold getProperty. destruct (object !! name) as [parser|].
  - split; [done|by intros [? _]].
  - case_bool_decide as Hin.
    + split; [done|]. by intros [_ ?].
    + by split.
Qed.

(** What the endpoint answers before staging: a name that is neither an entry
    of [parserInfo] nor inherited gets status 400 and the message
    [Parser <name> is not available]; a known parser without files gets
    status 500 and [No files provided]; nothing is done outside in either
    case. *)
Lemma parserFileValidation_rejections context w req :
  (parserInfo context !! params_parserName req = None →
   params_parserName req ∉ objectPrototypeNames →
   parserFileValidation context w req
   = ([], Ok (mkResponse 400
                (Msg ("Parser " +:+ params_parserName req +:+ " is not available")))))
  ∧ (is_Some (parserInfo context !! params_parserName req) →
     files req = None →
     parserFileValidation context w req
     = ([], Ok (mkResponse 500 (Msg "No files provided")))).
Proof.
  unfold parserFileValidation. split.
  - intros Hnone Hnot.
    by rewrite (proj2 (getProperty_None _ _) (conj Hnone Hnot)).
  - intros [parser Hp] ->. by rewrite (getProperty_own _ _ _ Hp).
Qed.

(** C6. The claim holds for a name that no object inherits, and fails on an
    inherited one: [constructor] names no known parser, yet
    [context.parserInfo['constructor']] is truthy, so the request is not
    answered with status 400; without files it is answered with status 500
    and [No files provided], and with a file the file is staged, the parser is
    invoked under that name and the response is made of what the invocation
    gives, whatever that is. *)
Theorem parserFileValidation_inherited_name
    (outcome : string → list string → Result string) :
  parserInfo Sample.context !! "constructor" = None
  ∧ parserFileValidation Sample.context (mkWorld "/tmp/redeye-1" outcome)
      (mkRequest "constructor" None)
    = ([], Ok (mkResponse 500 (Msg "No files provided")))
  ∧ parserFileValidation Sample.context (mkWorld "/tmp/redeye-1" outcome)
      (mkRequest "constructor" (Some (OneFile (UploadedFile.mk "logs:a.log"))))
    = ([CreateTempDir "/tmp/redeye-1";
        Mv "logs:a.log" "/tmp/redeye-1/logs/a.log";
        InvokeParser "constructor" ["validate-files"; "--folder"; "/tmp/redeye-1/logs"];
        RemoveTempDir "/tmp/redeye-1"],
       match outcome "constructor" ["validate-files"; "--folder"; "/tmp/redeye-1/logs"] with
       | Ok validated => Ok (mkResponse 200 (Validated validated))
       | Fail e => Fail e
       end).
Proof.
  assert (getProperty (parserInfo Sample.context) "constructor"
          = Some (Inherited "constructor")) as Hget by reflexivity.
  split; [reflexivity|]. split.
  - unfold parserFileValidation. cbn [params_parserName files]. by rewrite Hget.
  - unfold parserFileValidation. cbn [params_parserName files]. rewrite Hget.
    unfold withTempDir, stageAndValidate, invokeParser. cbn [tempDir parserOutcome].
    assert (Js.escapeWhitespace
              (Path.join ["/tmp/redeye-1";
                          default "" (head (Js.split "/" (Js.replaceAll ":" "/" "logs:a.log")))])
            = "/tmp/redeye-1/logs") as Hroot by reflexivity.
    assert (mvAll "/tmp/redeye-1" [Some (UploadedFile.mk "logs:a.log")]
            = ([Mv "logs:a.log" "/tmp/redeye-1/logs/a.log"], Ok tt)) as Hmv by reflexivity.
    cbn [nameOf mjoin head UploadedFile.name andThen ret].
    unfold andThen at 2. cbn [nameOf mjoin head option_join UploadedFile.name ret].
    rewrite Hmv, Hroot.
    by destruct (outcome "constructor" ["validate-files"; "--folder"; "/tmp/redeye-1/logs"]).
Qed.






End EndpointTheorems.

(** ** The comments list *)

Module CommentsListTheorems.
Import CommentsList.

Lemma substring_all (s : string) : String.substring 0 (String.length s) s = s.
Proof. induction s as [|c s IH]; cbn; [done|]. by rewrite IH. Qed.

Lemma sliceFrom_1 c rest : Js.sliceFrom 1 (String c rest) = rest.
Proof. unfold Js.sliceFrom. cbn. rewrite ?Nat.sub_0_r. apply substring_all. Qed.

Lemma sliceFrom_user rest : Js.sliceFrom 5 ("user-" +:+ rest) = rest.
Proof.
  unfold Js.sliceFrom. cbv [String.append]. cbn. rewrite ?Nat.sub_0_r. apply substring_all.
Qed.


(** [s.slice(0, 5) === 'user-'] tells that [s] starts with [user-]. *)
Lemma slice_user_inv s : Js.slice 0 5 s = "user-" → ∃ rest, s = "user-" +:+ rest.
Proof.
  unfold Js.slice. cbn.
  destruct s as [|c1 [|c2 [|c3 [|c4 [|c5 rest]]]]]; cbn; try discriminate.
  intros [= -> -> -> -> -> _]. exists rest. by cbv [String.append].
Qed.



End CommentsListTheorems.

(** ** Where the staged files go *)

Module PathFacts.

Lemma split_nonempty sep s : Js.split sep s ≠ [].
Proof.
  destruct s as [|c s]; cbn; [done|].
  destruct (bool_decide (c = sep)); [done|]. by destruct (Js.split sep s).
Qed.

Lemma append_cons c a b : String c a +:+ b = String c (a +:+ b).
Proof. reflexivity. Qed.

(** Splitting [a/b] gives the segments of [a] followed by those of [b]. *)
Lemma split_join2 a b :
  Js.split "/" (a +:+ "/" +:+ b) = (Js.split "/" a ++ Js.split "/" b)%list.
Proof.
  induction a as [|c a IH].
  - change ("" +:+ "/" +:+ b) with (String "/" b). cbn [Js.split].
    by rewrite bool_decide_eq_true_2.
  - rewrite append_cons. cbn [Js.split]. rewrite IH.
    destruct (bool_decide (c = "/"%char)); [done|].
    pose proof (split_nonempty "/" a). by destruct (Js.split "/" a).
Qed.

Lemma isAbsolute_app a b : a ≠ "" → Path.isAbsolute (a +:+ b) = Path.isAbsolute a.
Proof. by destruct a. Qed.

Lemma endsWithSlash_app a b : b ≠ "" → Path.endsWithSlash (a +:+ b) = Path.endsWithSlash b.
Proof.
  intros Hb. induction a as [|c a IH]; [done|].
  rewrite append_cons. cbn [Path.endsWithSlash].
  rewrite IH. destruct (a +:+ b) eqn:E; [|done].
  destruct a; [by subst|done].
Qed.

Lemma normalizeStep_foldl allow res segs :
  ".." ∉ segs →
  foldl (Path.normalizeStep allow) res segs = (rev (Path.kept segs) ++ res)%list.
Proof.
  revert res. induction segs as [|seg segs IH]; intros res Hno; [done|].
  apply not_elem_of_cons in Hno as [Hne Hno]. cbn [foldl].
  rewrite IH by done. unfold Path.kept. rewrite filter_cons. unfold Path.normalizeStep.
  destruct (decide (seg = "" ∨ seg = ".")) as [Hd|Hd].
  - rewrite bool_decide_eq_true_2 by done. by rewrite decide_False by tauto.
  - rewrite bool_decide_eq_false_2 by done.
    rewrite (bool_decide_eq_false_2 (seg = "..")) by congruence.
    rewrite decide_True by done. cbn [rev]. by rewrite <- app_assoc.
Qed.

Lemma normalizeSegments_app allow segs more :
  ".." ∉ more →
  Path.normalizeSegments allow (segs ++ more) = (Path.normalizeSegments allow segs ++ Path.kept more)%list.
Proof.
  intros Hno. unfold Path.normalizeSegments.
  rewrite foldl_app, normalizeStep_foldl by done.
  by rewrite rev_app_distr, rev_involutive.
Qed.

(** A name none of whose segments is [..] is staged below the temporary
    directory: the segments of [path.join(dir, name)] are those of the
    directory followed by those of the name. *)
Lemma join_below dir name :
  dir ≠ "" → name ≠ "" → ".." ∉ Js.split "/" name →
  Path.join [dir; name]
  = Path.render (Path.isAbsolute dir) (Path.endsWithSlash name)
      (Path.normalizeSegments (negb (Path.isAbsolute dir)) (Js.split "/" dir)
       ++ Path.kept (Js.split "/" name)).
Proof.
  intros Hd Hn Hno. unfold Path.join.
  rewrite filter_cons, decide_True by done.
  rewrite filter_cons, decide_True by done. rewrite filter_nil.
  cbn [String.concat]. unfold Path.normalize.
  destruct (dir +:+ "/" +:+ name) eqn:E; [by destruct dir|]. rewrite <- E. clear E.
  rewrite isAbsolute_app by done.
  rewrite endsWithSlash_app by done.
  change ("/" +:+ name) with (String "/" name).
  assert (Path.endsWithSlash (String "/" name) = Path.endsWithSlash name) as ->
    by by destruct name.
  change (dir +:+ String "/" name) with (dir +:+ "/" +:+ name).
  by rewrite split_join2, normalizeSegments_app.
Qed.

End PathFacts.

(** ** Staging and validation *)

Module StagingTheorems.
Import ParserEndpoint.

Lemma mvAll_files dir files : mvAll dir (Some <$> files) = (mvOf dir <$> files, Ok tt).
Proof.
  induction files as [|file files IH]; [done|].
  cbn. rewrite IH. done.
Qed.

(** A request whose parser name is found and whose list of files is not
    empty. *)
Lemma parserFileValidation_staged_any context w req prop first rest :
  getProperty (parserInfo context) (params_parserName req) = Some prop →
  files req = Some (FileList (first :: rest)) →
  parserFileValidation context w req
  = ((CreateTempDir (tempDir w)
      :: (mvOf (tempDir w) <$> first :: rest)
      ++ [InvokeParser (params_parserName req) (validateArgs (tempDir w) first);
          RemoveTempDir (tempDir w)])%list,
     match parserOutcome w (params_parserName req) (validateArgs (tempDir w) first) with
     | Ok validated => Ok (mkResponse 200 (Validated validated))
     | Fail e => Fail e
     end).
Proof.
  intros Hp Hf. unfold parserFileValidation. rewrite Hp, Hf.
  unfold withTempDir, stageAndValidate. cbn [head fmap list_fmap mjoin option_join nameOf].
  unfold ret at 1. cbn [andThen].
  pose proof (mvAll_files (tempDir w) (first :: rest)) as Hmv.
  cbn [fmap list_fmap] in Hmv. rewrite Hmv. clear Hmv.
  cbn [andThen invokeParser].
  fold (rootOf first). fold (validateArgs (tempDir w) first).
  destruct (parserOutcome w _ _) as [validated|e]; cbn.
  - by rewrite app_nil_r, <- !app_assoc.
  - by rewrite <- !app_assoc.
Qed.

(** A request with a known parser and a list of files that is not empty:
    the directory is created, one move is issued per file, in order, to
    [path.join(dir, name)] with the colons of the name turned into slashes,
    the parser is invoked in [validate-files] mode on the first segment of the
    first name below the directory, with whitespace runs escaped, and the
    directory is removed; the response carries the parser's result. *)
Lemma parserFileValidation_staged context w req parser first rest :
  parserInfo context !! params_parserName req = Some parser →
  files req = Some (FileList (first :: rest)) →
  parserFileValidation context w req
  = ((CreateTempDir (tempDir w)
      :: (mvOf (tempDir w) <$> first :: rest)
      ++ [InvokeParser (params_parserName req) (validateArgs (tempDir w) first);
          RemoveTempDir (tempDir w)])%list,
     match parserOutcome w (params_parserName req) (validateArgs (tempDir w) first) with
     | Ok validated => Ok (mkResponse 200 (Validated validated))
     | Fail e => Fail e
     end).
Proof.
  intros Hp. apply parserFileValidation_staged_any with (OwnEntry parser).
  by apply EndpointTheorems.getProperty_own.
Qed.

(** Colons are gone from a normalized name, and nothing else changes. *)
Lemma replaceAll_colons name :
  String.list_ascii_of_string (Js.replaceAll ":" "/" name)
  = (λ c, if bool_decide (c = ":"%char) then "/"%char else c) <$> String.list_ascii_of_string name
  ∧ ":"%char ∉ String.list_ascii_of_string (Js.replaceAll ":" "/" name).
Proof.
  induction name as [|c name [IH1 IH2]]; cbn; [split; [done|apply not_elem_of_nil]|].
  rewrite IH1. split; [done|]. rewrite <- IH1.
  apply not_elem_of_cons. split; [|done]. by case_bool_decide.
Qed.



(** C8. The endpoint normalizes, stages and validates as the claim says for
    names that stay below the temporary directory, but a name with a [..]
    segment leaves it: a single file named [..:evil] is moved to [/tmp/evil],
    outside the temporary directory [/tmp/redeye-1], and the parser is
    pointed at [/tmp]. *)
Theorem parserFileValidation_leaves_temp_dir :
  parserFileValidation Sample.context Sample.world (Sample.upload ["..:evil"])
  = ([CreateTempDir "/tmp/redeye-1";
      Mv "..:evil" "/tmp/evil";
      InvokeParser "cobalt-strike-parser" ["validate-files"; "--folder"; "/tmp"];
      RemoveTempDir "/tmp/redeye-1"],
     Ok (mkResponse 200 (Validated "valid"))).
Proof.
  rewrite (parserFileValidation_staged _ _ _ (mkParserInfo "cobalt-strike-parser")
             (UploadedFile.mk "..:evil") []) by reflexivity.
  reflexivity.
Qed.

(** The same request with names that stay below the directory. *)
Example parserFileValidation_two_files :
  parserFileValidation Sample.context Sample.world
    (Sample.upload ["my logs:srv 1:a.log"; "my logs:srv 1:b.log"])
  = ([CreateTempDir "/tmp/redeye-1";
      Mv "my logs:srv 1:a.log" "/tmp/redeye-1/my logs/srv 1/a.log";
      Mv "my logs:srv 1:b.log" "/tmp/redeye-1/my logs/srv 1/b.log";
      InvokeParser "cobalt-strike-parser"
        ["validate-files"; "--folder"; "/tmp/redeye-1/my\ logs"];
      RemoveTempDir "/tmp/redeye-1"],
     Ok (mkResponse 200 (Validated "valid"))).
Proof. reflexivity. Qed.

Example path_join_examples :
  Path.join ["/tmp/d"; "a/b c"] = "/tmp/d/a/b c"
  ∧ Path.join ["/tmp/d"; ""] = "/tmp/d"
  ∧ Path.join ["/tmp/d/"; "/a//b/./c/"] = "/tmp/d/a/b/c/"
  ∧ Path.join ["a"; "../../b"] = "../b"
  ∧ Path.join ["/"; "../../b/.."] = "/"
  ∧ Path.join [""; ""] = ".".
Proof. by split_and!. Qed.

Example escapeWhitespace_examples :
  Js.escapeWhitespace "a b" = "a\ b"
  ∧ Js.escapeWhitespace "a  b c" = "a\  b\ c"
  ∧ Js.escapeWhitespace "ab" = "ab".
Proof. by split_and!. Qed.

End StagingTheorems.

(* ================================================================== *)
(** * Further properties of the resolvers *)

Module ServersMore.
Import ServerResolvers ToggleFacts ToggleEffect ServersTheorems.

Lemma find_anyRow {A} (tbl : list A) : Em.find anyRow tbl = tbl.
Proof.
  unfold Em.find, anyRow. induction tbl as [|x tbl IH]; [done|].
  by rewrite filter_cons, decide_True, IH.
Qed.

(** What a successful call returns and leaves, for either value of [hidden]. *)
Lemma servers_inv ctx campaignId username hidden out ctx' :
  servers ctx campaignId username hidden = Ok (out, ctx') →
  ∃ db em,
    projects ctx !! campaignId = Some db
    ∧ mainDb ctx = Some em
    ∧ out = (λ server,
              mkLoaded server
                (beacons_init (if negb hidden
                               then (λ b, bool_decide (Beacon.hidden b = hidden))
                               else anyRow) db server))
            <$> Em.find (if negb hidden then serversWhere hidden db else anyRow) (servers_tbl db)
    ∧ projects ctx' = projects ctx
    ∧ signals ctx' = ForkMain :: signals ctx
    ∧ ∃ em',
        mainDb ctx' = Some em'
        ∧ campaigns_tbl em'
          = (if campaignUpdateThrows ctx then campaigns_tbl em
             else Em.nativeUpdate (Em.idIs Campaign.id (Some campaignId))
                    (Campaign.set_lastOpenedBy (Some username)) (campaigns_tbl em))
        ∧ (username ∈ operators_tbl em → operators_tbl em' = operators_tbl em).
Proof.
  unfold servers, connectToProjectEmOrFail, getMainEmOrFail.
  destruct (projects ctx !! campaignId) as [db|]; [|done]. cbn.
  destruct (mainDb ctx) as [em|]; [|done]. cbn.
  destruct (Em.findOne _ (operators_tbl em)) as [op|] eqn:Hop; cbn; intros [= <- <-].
  - apply findOne_Some in Hop as [->%bool_decide_eq_true _].
    exists db, em. split_and!; try done. eexists. split; [reflexivity|].
    by destruct (campaignUpdateThrows ctx).
  - exists db, em. split_and!; try done. eexists. split; [reflexivity|]. split.
    + by destruct (campaignUpdateThrows ctx).
    + intros Hin. exfalso.
      assert (username ∈ Em.find (λ o, bool_decide (o = username)) (operators_tbl em)) as Hf.
      { apply find_elem. split; [by apply bool_decide_eq_true|done]. }
      unfold Em.findOne in Hop. destruct (Em.find _ (operators_tbl em)); [|done].
      by apply elem_of_nil in Hf.
Qed.

(** X1. With [hidden = true] nothing is filtered: [servers] returns every
    server of the campaign, each once, and with each all the beacons
    associated with it, hidden or not.  Nothing is said of the order of the
    servers or of the beacons in a collection. *)
Theorem servers_hidden_returns_all ctx campaignId username db em :
  projects ctx !! campaignId = Some db →
  mainDb ctx = Some em →
  ∃ out ctx',
    servers ctx campaignId username true = Ok (out, ctx')
    ∧ entity <$> out ≡ₚ servers_tbl db
    ∧ Forall (λ l, beacons l ≡ₚ beaconsOf db (Server.id (entity l))) out.
Proof.
  intros Hdb Hem.
  destruct (servers_ok ctx campaignId username true db em Hdb Hem) as (out & ctx' & H).
  exists out, ctx'. split; [done|].
  apply servers_inv in H as (db' & em' & Hdb' & _ & -> & _).
  assert (db' = db) as -> by congruence. cbn [negb].
  rewrite find_anyRow. split.
  - rewrite <- list_fmap_compose. by rewrite list_fmap_id.
  - apply Forall_fmap, Forall_forall. intros s _. cbn.
    by rewrite beacons_init_beaconsOf.
Qed.

Lemma servers_hidden_returns_all_witness :
  projects Sample.ctx !! "c1" = Some Sample.db
  ∧ mainDb Sample.ctx = Some (mkMainDb ["alice"] [Campaign.mk "c1" None])
  ∧ ∃ out ctx',
      servers Sample.ctx "c1" "alice" true = Ok (out, ctx')
      ∧ entity <$> out ≡ₚ servers_tbl Sample.db
      ∧ Forall (λ l, beacons l ≡ₚ beaconsOf Sample.db (Server.id (entity l))) out.
Proof.
  split; [reflexivity|]. split; [reflexivity|].
  apply (servers_hidden_returns_all Sample.ctx "c1" "alice" Sample.db
           (mkMainDb ["alice"] [Campaign.mk "c1" None])); reflexivity.
Defined.

(** X2. With [hidden = false] the result is exact: a server is returned if
    and only if it is in the table, is not hidden and has a beacon that is not
    hidden; and the beacons loaded for a returned server are exactly its
    beacons that are not hidden.  Nothing is said of the order of the servers
    or of the beacons in a collection. *)
Theorem servers_visible_exact ctx campaignId username db em :
  projects ctx !! campaignId = Some db →
  mainDb ctx = Some em →
  ∃ out ctx',
    servers ctx campaignId username false = Ok (out, ctx')
    ∧ (∀ s, s ∈ entity <$> out ↔
            s ∈ servers_tbl db ∧ Server.hidden s = false
            ∧ ∃ b, b ∈ beacons_tbl db ∧ Beacon.server b = Server.id s
                   ∧ Beacon.hidden b = false)
    ∧ Forall (λ l, beacons l
                   ≡ₚ filter (λ b, Beacon.hidden b = false)
                        (beaconsOf db (Server.id (entity l)))) out
    ∧ Forall (λ l, ∀ b, b ∈ beacons l ↔
                        b ∈ beacons_tbl db
                        ∧ Beacon.server b = Server.id (entity l)
                        ∧ Beacon.hidden b = false) out.
Proof.
  intros Hdb Hem.
  destruct (servers_ok ctx campaignId username false db em Hdb Hem) as (out & ctx' & H).
  exists out, ctx'. split; [done|].
  apply servers_inv in H as (db' & em' & Hdb' & _ & -> & _).
  assert (db' = db) as -> by congruence. cbn [negb].
  rewrite <- list_fmap_compose.
  assert ((entity ∘ (λ server, mkLoaded server
             (beacons_init (λ b, bool_decide (Beacon.hidden b = false)) db server)))
          <$> Em.find (serversWhere false db) (servers_tbl db)
          = Em.find (serversWhere false db) (servers_tbl db)) as -> by apply list_fmap_id.
  split_and!.
  - intros s. rewrite find_elem, serversWhere_visible. tauto.
  - apply Forall_fmap, Forall_forall. intros s _. cbn.
    unfold beacons_init, beaconsOf, Em.find. rewrite list_filter_filter.
    assert (∀ (P Q : Beacon.t → Prop) `{!∀ x, Decision (P x)} `{!∀ x, Decision (Q x)} l,
              (∀ x, P x ↔ Q x) → filter P l ≡ₚ filter Q l) as Hperm.
    { intros P Q ? ? l HPQ. by rewrite (list_filter_iff P Q l HPQ). }
    apply Hperm. intros b. rewrite andb_True, !bool_decide_spec. tauto.
  - apply Forall_fmap, Forall_forall. intros s _ b. cbn.
    unfold beacons_init. rewrite find_elem, andb_true_iff, !bool_decide_eq_true. tauto.
Qed.

Lemma servers_visible_exact_witness :
  projects Sample.ctx !! "c1" = Some Sample.db
  ∧ mainDb Sample.ctx = Some (mkMainDb ["alice"] [Campaign.mk "c1" None])
  ∧ ∃ out ctx',
      servers Sample.ctx "c1" "alice" false = Ok (out, ctx')
      ∧ (∀ s, s ∈ entity <$> out ↔ s = Server.mk "s1" "A" "B" "C" false HTTP).
Proof.
  split; [reflexivity|]. split; [reflexivity|].
  destruct (servers_visible_exact Sample.ctx "c1" "alice" Sample.db
              (mkMainDb ["alice"] [Campaign.mk "c1" None]) eq_refl eq_refl)
    as (out & ctx' & Hcall & _).
  exists out, ctx'. split; [exact Hcall|].
  vm_compute in Hcall. injection Hcall as <- _. intros s. cbn.
  rewrite elem_of_cons, elem_of_nil. tauto.
Defined.

(** X3. [servers] is a query on the campaign: it leaves every campaign
    database as it was and sends one [forkMain] notification.  What it writes
    is in the main database: an operator that exists already is not created
    again, no campaign is added or removed and the other campaigns are
    untouched; the campaign's [lastOpenedBy] becomes the user when the update
    goes through, and when the update throws the campaigns stay as they were.
    The update is best effort: with an update that throws, the call returns
    the same servers. *)
Theorem servers_writes_only_main ctx campaignId username hidden out ctx' :
  servers ctx campaignId username hidden = Ok (out, ctx') →
  projects ctx' = projects ctx
  ∧ signals ctx' = ForkMain :: signals ctx
  ∧ (∃ em em',
       mainDb ctx = Some em ∧ mainDb ctx' = Some em'
       ∧ Campaign.id <$> campaigns_tbl em' = Campaign.id <$> campaigns_tbl em
       ∧ (∀ i c, campaigns_tbl em !! i = Some c → Campaign.id c ≠ campaignId →
            campaigns_tbl em' !! i = Some c)
       ∧ (campaignUpdateThrows ctx = false →
          ∀ i c, campaigns_tbl em !! i = Some c → Campaign.id c = campaignId →
                 campaigns_tbl em' !! i = Some (Campaign.mk campaignId (Some username)))
       ∧ (campaignUpdateThrows ctx = true → campaigns_tbl em' = campaigns_tbl em)
       ∧ (username ∈ operators_tbl em → operators_tbl em' = operators_tbl em))
  ∧ (∃ ctxT,
       servers (mkContext (mainDb ctx) (projects ctx) (signals ctx) true)
         campaignId username hidden = Ok (out, ctxT))
  ∧ (∃ ctxF,
       servers (mkContext (mainDb ctx) (projects ctx) (signals ctx) false)
         campaignId username hidden = Ok (out, ctxF)).
Proof.
  intros H.
  pose proof (servers_inv _ _ _ _ _ _ H)
    as (db & em & Hdb & Hem & Hout & Hp & Hsig & em' & Hem' & Hc & Hops).
  split; [done|]. split; [done|]. split; [|split].
  - exists em, em'. split_and!; try done.
    + rewrite Hc. destruct (campaignUpdateThrows ctx); [done|].
      unfold Em.nativeUpdate. rewrite <- list_fmap_compose.
      apply list_fmap_ext. intros i c _. cbn. by destruct (bool_decide _).
    + intros i c Hi Hne. rewrite Hc. destruct (campaignUpdateThrows ctx); [done|].
      unfold Em.nativeUpdate. rewrite list_lookup_fmap, Hi. cbn.
      by rewrite bool_decide_eq_false_2.
    + intros Hf i c Hi Hid. rewrite Hc, Hf.
      unfold Em.nativeUpdate. rewrite list_lookup_fmap, Hi. cbn.
      rewrite bool_decide_eq_true_2 by done. by rewrite <- Hid.
    + intros Ht. by rewrite Hc, Ht.
  - destruct (servers_ok (mkContext (mainDb ctx) (projects ctx) (signals ctx) true)
                campaignId username hidden db em Hdb Hem) as (outT & ctxT & HT).
    exists ctxT. rewrite HT.
    apply servers_inv in HT as (dbT & _ & HdbT & _ & -> & _). cbn in HdbT.
    assert (dbT = db) as -> by congruence. by rewrite Hout.
  - destruct (servers_ok (mkContext (mainDb ctx) (projects ctx) (signals ctx) false)
                campaignId username hidden db em Hdb Hem) as (outF & ctxF & HF).
    exists ctxF. rewrite HF.
    apply servers_inv in HF as (dbF & _ & HdbF & _ & -> & _). cbn in HdbF.
    assert (dbF = db) as -> by congruence. by rewrite Hout.
Qed.

Lemma servers_writes_only_main_witness :
  (∃ out ctx',
     servers Sample.ctx "c1" "alice" false = Ok (out, ctx')
     ∧ projects ctx' = projects Sample.ctx
     ∧ signals ctx' = [ForkMain]
     ∧ mainDb ctx' = Some (mkMainDb ["alice"] [Campaign.mk "c1" (Some "alice")]))
  ∧ (∃ out ctx',
       servers Sample.ctxReadOnly "c1" "alice" false = Ok (out, ctx')
       ∧ projects ctx' = projects Sample.ctxReadOnly
       ∧ signals ctx' = [ForkMain]
       ∧ mainDb ctx' = Some (mkMainDb ["alice"] [Campaign.mk "c1" None])).
Proof.
  split.
  - eexists _, _. split; [reflexivity|].
    destruct (servers_writes_only_main Sample.ctx "c1" "alice" false _ _ eq_refl)
      as (Hp & Hs & _).
    split_and!; [exact Hp | exact Hs | reflexivity].
  - eexists _, _. split; [reflexivity|].
    destruct (servers_writes_only_main Sample.ctxReadOnly "c1" "alice" false _ _ eq_refl)
      as (Hp & Hs & _).
    split_and!; [exact Hp | exact Hs | reflexivity].
Defined.

End ServersMore.

Module ToggleMore.
Import ServerResolvers ToggleFacts ToggleEffect ServersTheorems ServersMore.

(** The three tables a successful call leaves. *)
Lemma toggle_tables ctx campaignId serverId r ctx' :
  toggleServerHidden ctx campaignId serverId = Ok (r, ctx') →
  ∃ db server,
    projects ctx !! campaignId = Some db
    ∧ serverOf db serverId = Some server
    ∧ Server.id (entity r) = serverId
    ∧ Server.hidden (entity r) = negb (Server.hidden server)
    ∧ ctx' = signal (ForkProject campaignId)
               (set_project campaignId
                  (mkProjectDb
                     (Em.nativeUpdate (Em.idIs Server.id (Some serverId)) (λ _, entity r)
                        (servers_tbl db))
                     (Em.nativeUpdate
                        (λ x, existsb (λ b, Em.idIs Beacon.id (Some (Beacon.id b)) x)
                                (beaconsOf db serverId))
                        (Beacon.set_hidden (Server.hidden (entity r))) (beacons_tbl db))
                     (Em.nativeUpdate
                        (λ h, existsb (λ b, Em.idIs Host.id (Beacon.host b) h)
                                (beaconsOf db serverId))
                        (Host.set_hidden (Server.hidden (entity r))) (hosts_tbl db)))
                  ctx).
Proof.
  intros H. apply toggleServerHidden_inv in H as (db & server & Hdb & Hs & Hid & -> & ->).
  exists db, server. cbn [entity beacons].
  rewrite beacons_init_beaconsOf, Hid, toggle_loop.
  split_and!; try done.
  unfold Em.persistAndFlush. cbn. by rewrite Hid.
Qed.

Lemma existsb_none {B} (p : B → bool) (l : list B) :
  (∀ x, x ∈ l → p x = false) → existsb p l = false.
Proof.
  intros H. induction l as [|x l IH]; [done|]. cbn.
  rewrite H by apply list_elem_of_here. apply IH.
  intros y Hy. apply H. by apply list_elem_of_further.
Qed.



End ToggleMore.

Module ToggleThenServers.
Import ServerResolvers ToggleFacts ToggleEffect ServersTheorems ServersMore ToggleMore.

Lemma find_ext_in {A} (p q : A → bool) tbl :
  (∀ x, x ∈ tbl → p x = q x) → Em.find p tbl = Em.find q tbl.
Proof.
  intros H. unfold Em.find. induction tbl as [|x tbl IH]; [done|].
  rewrite !filter_cons. rewrite (H x) by apply list_elem_of_here.
  rewrite IH; [done|]. intros y Hy. apply H. by apply list_elem_of_further.
Qed.

(** X5. Hiding removes a server from the default listing: after
    [toggleServerHidden] on a server that was not hidden, [servers] with
    [hidden = false] returns no server with that id. *)
Theorem hidden_server_not_listed ctx campaignId serverId username db em server :
  projects ctx !! campaignId = Some db →
  mainDb ctx = Some em →
  serverOf db serverId = Some server →
  Server.hidden server = false →
  ∃ r ctx1 out ctx2,
    toggleServerHidden ctx campaignId serverId = Ok (r, ctx1)
    ∧ servers ctx1 campaignId username false = Ok (out, ctx2)
    ∧ Forall (λ l, Server.id (entity l) ≠ serverId) out.
Proof.
  intros Hdb Hem Hs Hvis.
  destruct (toggleServerHidden_ok ctx campaignId serverId db server Hdb Hs) as (r & ctx1 & H1).
  pose proof (toggle_tables _ _ _ _ _ H1) as (db0 & server0 & Hdb0 & Hs0 & Hid & Hh & Hctx1).
  assert (db0 = db) as -> by congruence.
  assert (server0 = server) as -> by congruence. clear Hdb0 Hs0.
  rewrite Hvis in Hh. cbn in Hh.
  assert (mainDb ctx1 = Some em) as Hem1 by by rewrite Hctx1.
  assert (∃ db1, projects ctx1 !! campaignId = Some db1
                 ∧ servers_tbl db1
                   = Em.nativeUpdate (Em.idIs Server.id (Some serverId)) (λ _, entity r)
                       (servers_tbl db)) as (db1 & Hdb1 & Htbl).
  { rewrite Hctx1. eexists. split; [apply lookup_insert_eq|done]. }
  destruct (servers_ok ctx1 campaignId username false db1 em Hdb1 Hem1) as (out & ctx2 & H2).
  exists r, ctx1, out, ctx2. split; [done|]. split; [done|].
  apply servers_visible_inv in H2 as (db1' & Hdb1' & ->).
  assert (db1' = db1) as -> by congruence.
  apply Forall_fmap, Forall_forall. intros s Hin. cbn.
  apply find_elem in Hin as [Hw Hin].
  apply serversWhere_visible in Hw as [Hw _].
  rewrite Htbl in Hin. unfold Em.nativeUpdate in Hin.
  apply list_elem_of_fmap in Hin as (row & -> & _). cbn in *.
  case_bool_decide as Hrow; [congruence|done].
Qed.

Lemma hidden_server_not_listed_witness :
  projects Sample.ctx !! "c1" = Some Sample.db
  ∧ mainDb Sample.ctx = Some (mkMainDb ["alice"] [Campaign.mk "c1" None])
  ∧ serverOf Sample.db "s1" = Some (Server.mk "s1" "A" "B" "C" false HTTP)
  ∧ ∃ r ctx1 out ctx2,
      toggleServerHidden Sample.ctx "c1" "s1" = Ok (r, ctx1)
      ∧ servers ctx1 "c1" "alice" false = Ok (out, ctx2)
      ∧ Forall (λ l, Server.id (entity l) ≠ "s1") out.
Proof.
  split; [reflexivity|]. split; [reflexivity|]. split; [reflexivity|].
  apply (hidden_server_not_listed Sample.ctx "c1" "s1" "alice" Sample.db
           (mkMainDb ["alice"] [Campaign.mk "c1" None])
           (Server.mk "s1" "A" "B" "C" false HTTP)); reflexivity.
Defined.

(** X6. Un-hiding lists a server with all its beacons: after
    [toggleServerHidden] on a hidden server that has at least one beacon,
    [servers] with [hidden = false] returns that server, and the beacons
    loaded for it are all the beacons associated with it, each of them no
    longer hidden, whatever their flags were before.  Nothing is said of the
    order of the beacons in the collection. *)
Theorem unhidden_server_listed ctx campaignId serverId username db em server :
  projects ctx !! campaignId = Some db →
  mainDb ctx = Some em →
  serverOf db serverId = Some server →
  Server.hidden server = true →
  beaconsOf db serverId ≠ [] →
  ∃ r ctx1 out ctx2 l,
    toggleServerHidden ctx campaignId serverId = Ok (r, ctx1)
    ∧ servers ctx1 campaignId username false = Ok (out, ctx2)
    ∧ l ∈ out
    ∧ entity l = Server.set_hidden false server
    ∧ beacons l ≡ₚ Beacon.set_hidden false <$> beaconsOf db serverId.
Proof.
  intros Hdb Hem Hs Hhid Hne.
  destruct (toggleServerHidden_ok ctx campaignId serverId db server Hdb Hs) as (r & ctx1 & H1).
  pose proof (toggle_tables _ _ _ _ _ H1) as (dbt & servert & _ & _ & Hid & _ & Hctx1).
  pose proof (toggle_effect _ _ _ _ _ H1)
    as (db0 & server0 & db1 & Hdb0 & Hs0 & Hdb1 & Hr & _ & Hs1 & Hb1 & _).
  assert (db0 = db) as -> by congruence.
  assert (server0 = server) as -> by congruence. clear Hdb0 Hs0.
  rewrite Hr, Hhid in Hb1. cbn in Hb1. rewrite Hhid in Hr. cbn in Hr.
  assert (mainDb ctx1 = Some em) as Hem1 by by rewrite Hctx1.
  destruct (servers_ok ctx1 campaignId username false db1 em Hdb1 Hem1) as (out & ctx2 & H2).
  pose proof (servers_visible_inv _ _ _ _ _ H2) as (db1' & Hdb1' & Hout).
  assert (db1' = db1) as -> by congruence.
  exists r, ctx1, out, ctx2,
    (mkLoaded (entity r)
       (beacons_init (λ b, bool_decide (Beacon.hidden b = false)) db1 (entity r))).
  split; [done|]. split; [done|].
  split; [|split].
  - rewrite Hout.
    apply (list_elem_of_fmap_2
             (λ server, mkLoaded server
                (beacons_init (λ b, bool_decide (Beacon.hidden b = false)) db1 server))).
    apply find_elem. split.
    + apply serversWhere_visible. rewrite Hr. split; [done|].
      destruct (beaconsOf db serverId) as [|b0 bs] eqn:Hbs; [done|].
      exists (Beacon.set_hidden false b0).
      assert (Beacon.set_hidden false b0 ∈ beaconsOf db1 serverId) as Hin
        by (rewrite Hb1; apply list_elem_of_here).
      apply find_elem in Hin as [Hsrv%bool_decide_eq_true Hin].
      split_and!; [done| |done]. rewrite Hsrv. by rewrite <- Hr.
    + apply findOne_Some in Hs1 as [_ Hs1]. exact Hs1.
  - cbn. by rewrite Hr.
  - cbn. rewrite <- Hb1. apply reflexive_eq. unfold beacons_init, beaconsOf.
    rewrite Hid.
    assert (∀ b, b ∈ beacons_tbl db1 → Beacon.server b = serverId → Beacon.hidden b = false)
      as Hall.
    { intros b Hb Hsrv.
      assert (b ∈ beaconsOf db1 serverId) as Hin
        by (apply find_elem; split; [by apply bool_decide_eq_true|done]).
      rewrite Hb1 in Hin. by apply list_elem_of_fmap in Hin as (b' & -> & _). }
    apply find_ext_in. intros b Hb.
    destruct (bool_decide (Beacon.server b = serverId)) eqn:E; [|done].
    apply bool_decide_eq_true in E. cbn. apply bool_decide_eq_true. by apply Hall.
Qed.

Lemma unhidden_server_listed_witness :
  projects Sample.ctx !! "c1" = Some Sample.db
  ∧ mainDb Sample.ctx = Some (mkMainDb ["alice"] [Campaign.mk "c1" None])
  ∧ serverOf Sample.db "s3" = Some (Server.mk "s3" "G" "H" "I" true DNS)
  ∧ beaconsOf Sample.db "s3" = [Beacon.mk "b4" "four" true (Some "h3") "s3"]
  ∧ ∃ r ctx1 out ctx2 l,
      toggleServerHidden Sample.ctx "c1" "s3" = Ok (r, ctx1)
      ∧ servers ctx1 "c1" "alice" false = Ok (out, ctx2)
      ∧ l ∈ out
      ∧ entity l = Server.mk "s3" "G" "H" "I" false DNS
      ∧ beacons l ≡ₚ [Beacon.mk "b4" "four" false (Some "h3") "s3"].
Proof.
  split; [reflexivity|]. split; [reflexivity|]. split; [reflexivity|]. split; [reflexivity|].
  apply (unhidden_server_listed Sample.ctx "c1" "s3" "alice" Sample.db
           (mkMainDb ["alice"] [Campaign.mk "c1" None])
           (Server.mk "s3" "G" "H" "I" true DNS)); done.
Defined.

End ToggleThenServers.

Module UpdateMore.
Import ServerResolvers ToggleFacts ToggleEffect UpdateTheorems.

(** X7. A rename through [updateServerMetadata] with a display name that is
    not empty reaches the rows tied to the server through a Cobalt Strike
    host, and only those: a beacon of the server whose host is flagged
    [cobaltStrikeServer] takes the name, and so does a flagged host that has a
    beacon of the server; beacons of other servers, beacons whose host is not
    flagged, hosts that are not flagged and hosts without a beacon of the
    server stay exactly as they were.  No notification is sent. *)
Theorem updateServerMetadata_rename ctx serverId campaignId dn serverType db server :
  projects ctx !! campaignId = Some db →
  serverOf db serverId = Some server →
  dn ≠ "" →
  ∃ server' ctx' db',
    updateServerMetadata ctx serverId campaignId (Some dn) serverType = Ok (server', ctx')
    ∧ projects ctx' !! campaignId = Some db'
    ∧ signals ctx' = signals ctx
    ∧ Server.displayName server' = dn
    ∧ (∀ i b h, beacons_tbl db !! i = Some b → Beacon.server b = serverId →
         h ∈ hosts_tbl db → Beacon.host b = Some (Host.id h) →
         Host.cobaltStrikeServer h = true →
         beacons_tbl db' !! i = Some (Beacon.set_displayName dn b))
    ∧ (∀ i b, beacons_tbl db !! i = Some b → Beacon.server b ≠ serverId →
         beacons_tbl db' !! i = Some b)
    ∧ (∀ i b, beacons_tbl db !! i = Some b →
         (∀ h, h ∈ hosts_tbl db → Beacon.host b = Some (Host.id h) →
               Host.cobaltStrikeServer h = false) →
         beacons_tbl db' !! i = Some b)
    ∧ (∀ i h b, hosts_tbl db !! i = Some h → Host.cobaltStrikeServer h = true →
         b ∈ beacons_tbl db → Beacon.server b = serverId →
         Beacon.host b = Some (Host.id h) →
         hosts_tbl db' !! i = Some (Host.set_displayName dn h))
    ∧ (∀ i h, hosts_tbl db !! i = Some h → Host.cobaltStrikeServer h = false →
         hosts_tbl db' !! i = Some h)
    ∧ (∀ i h, hosts_tbl db !! i = Some h →
         (∀ b, b ∈ beacons_tbl db → Beacon.server b = serverId →
               Beacon.host b ≠ Some (Host.id h)) →
         hosts_tbl db' !! i = Some h).
Proof.
  intros Hdb Hs Hdn.
  unfold updateServerMetadata, connectToProjectEmOrFail. rewrite Hdb. cbn [orFail bind].
  fold (serverOf db serverId). rewrite Hs. cbn [orFail bind].
  assert (truthy (Some dn) = Some dn) as -> by by destruct dn.
  eexists _, _, _. split; [reflexivity|].
  split; [apply lookup_insert_eq|]. split; [done|].
  cbn [Em.persistAndFlush beacons_tbl hosts_tbl]. unfold Em.nativeUpdate.
  split_and!.
  - by destruct serverType.
  - intros i b h Hi Hsrv Hh Hhost Hcs. rewrite list_lookup_fmap, Hi. cbn.
    rewrite (ToggleFacts.existsb_intro _ _ h Hh), bool_decide_eq_true_2; [done..|].
    rewrite Hhost, Hcs. cbn. by rewrite bool_decide_eq_true_2.
  - intros i b Hi Hne. rewrite list_lookup_fmap, Hi. cbn.
    by rewrite (bool_decide_eq_false_2 _ Hne), andb_false_r.
  - intros i b Hi Hno. rewrite list_lookup_fmap, Hi. cbn.
    rewrite ToggleMore.existsb_none; [done|]. intros h Hh.
    specialize (Hno h Hh). destruct (Beacon.host b) as [hid|]; cbn; [|done].
    case_bool_decide as E; [|done]. cbn. apply Hno. by rewrite E.
  - intros i h b Hi Hcs Hb Hsrv Hhost. rewrite list_lookup_fmap, Hi. cbn.
    rewrite Hcs, (ToggleFacts.existsb_intro _ _ b Hb); [done|].
    rewrite Hhost. cbn. by rewrite !bool_decide_eq_true_2.
  - intros i h Hi Hcs. rewrite list_lookup_fmap, Hi. cbn. by rewrite Hcs.
  - intros i h Hi Hno. rewrite list_lookup_fmap, Hi. cbn.
    rewrite ToggleMore.existsb_none, andb_false_r; [done|]. intros b Hb.
    specialize (Hno b Hb). destruct (Beacon.host b) as [hid|]; cbn; [|done].
    case_bool_decide as E; [|done]. cbn. apply bool_decide_eq_false_2.
    intros Hsrv. apply (Hno Hsrv). by rewrite E.
Qed.

Lemma updateServerMetadata_rename_witness :
  projects Sample.ctx !! "c1" = Some Sample.db
  ∧ serverOf Sample.db "s1" = Some (Server.mk "s1" "A" "B" "C" false HTTP)
  ∧ ∃ server' ctx' db',
      updateServerMetadata Sample.ctx "s1" "c1" (Some "Z") None = Ok (server', ctx')
      ∧ projects ctx' !! "c1" = Some db'
      ∧ Server.displayName server' = "Z"
      ∧ Beacon.displayName <$> beacons_tbl db' = ["Z"; "two"; "three"; "four"]
      ∧ Host.displayName <$> hosts_tbl db' = ["Z"; "beta"; "gamma"].
Proof.
  split; [reflexivity|]. split; [reflexivity|].
  destruct (updateServerMetadata_rename Sample.ctx "s1" "c1" "Z" None Sample.db
              (Server.mk "s1" "A" "B" "C" false HTTP) eq_refl eq_refl)
    as (server' & ctx' & db' & Hcall & Hdb' & _ & Hname & _); [done|].
  exists server', ctx', db'. split_and!; [done..| |].
  - vm_compute in Hcall. injection Hcall as _ <-. by injection Hdb' as <-.
  - vm_compute in Hcall. injection Hcall as _ <-. by injection Hdb' as <-.
Defined.

Lemma nativeUpdate_same {A} (p : A → bool) (new : A) tbl :
  p new = true →
  Em.nativeUpdate p (λ _, new) (Em.nativeUpdate p (λ _, new) tbl)
  = Em.nativeUpdate p (λ _, new) tbl.
Proof.
  intros Hp. unfold Em.nativeUpdate. rewrite <- list_fmap_compose.
  apply list_fmap_ext. intros i x _. cbn. destruct (p x) eqn:E; [by rewrite Hp|by rewrite E].
Qed.

(** X8. [serverUpdate] is idempotent: a second call with the same input
    returns the same server and leaves every campaign database as the first
    call left it. *)
Theorem serverUpdate_idempotent ctx campaignId serverId input server1 ctx1 :
  serverUpdate ctx campaignId serverId input = Ok (server1, ctx1) →
  ∃ ctx2,
    serverUpdate ctx1 campaignId serverId input = Ok (server1, ctx2)
    ∧ projects ctx2 = projects ctx1
    ∧ mainDb ctx2 = mainDb ctx1.
Proof.
  unfold serverUpdate at 1. unfold connectToProjectEmOrFail.
  destruct (projects ctx !! campaignId) as [db|] eqn:Hdb; [|done]. cbn [orFail bind].
  destruct (Em.findOne _ (servers_tbl db)) as [server|] eqn:Hs; [|done]. cbn [orFail bind].
  set (server' := match truthy (ServerUpdateInput.displayName input) with
                  | Some _ => _ | None => _ end).
  intros [= <- <-].
  assert (Server.id server' = Server.id server) as Hid.
  { unfold server'. by destruct (truthy (ServerUpdateInput.displayName input)),
      (truthy (ServerUpdateInput.name input)), (truthy (ServerUpdateInput.parsingPath input)). }
  pose proof (persistAndFlush_serverOf db serverId server server' Hs Hid) as Hs1.
  unfold serverUpdate, connectToProjectEmOrFail.
  cbn [projects signal set_project]. rewrite lookup_insert_eq. cbn [orFail bind].
  unfold serverOf in Hs1. rewrite Hs1. cbn [orFail bind].
  assert ((match truthy (ServerUpdateInput.displayName input) with
           | Some displayName =>
               Server.set_displayName displayName
                 (match truthy (ServerUpdateInput.name input) with
                  | Some name =>
                      Server.set_name name
                        (match truthy (ServerUpdateInput.parsingPath input) with
                         | Some parsingPath => Server.set_parsingPath parsingPath server'
                         | None => server'
                         end)
                  | None =>
                      match truthy (ServerUpdateInput.parsingPath input) with
                      | Some parsingPath => Server.set_parsingPath parsingPath server'
                      | None => server'
                      end
                  end)
           | None =>
               match truthy (ServerUpdateInput.name input) with
               | Some name =>
                   Server.set_name name
                     (match truthy (ServerUpdateInput.parsingPath input) with
                      | Some parsingPath => Server.set_parsingPath parsingPath server'
                      | None => server'
                      end)
               | None =>
                   match truthy (ServerUpdateInput.parsingPath input) with
                   | Some parsingPath => Server.set_parsingPath parsingPath server'
                   | None => server'
                   end
               end
           end) = server') as Hfix.
  { unfold server'. destruct server.
    by destruct (truthy (ServerUpdateInput.displayName input)),
      (truthy (ServerUpdateInput.name input)), (truthy (ServerUpdateInput.parsingPath input)). }
  eexists. split; [|split].
  - cbv zeta. rewrite Hfix. reflexivity.
  - cbn [projects signal set_project]. rewrite insert_insert_eq. f_equal.
    unfold Em.persistAndFlush. cbn [servers_tbl beacons_tbl hosts_tbl]. f_equal.
    apply nativeUpdate_same. cbn. by apply bool_decide_eq_true.
  - done.
Qed.

Lemma serverUpdate_idempotent_witness :
  ∃ server1 ctx1 ctx2,
    serverUpdate Sample.ctx "c1" "s1" (ServerUpdateInput.mk None (Some "X") (Some "")) 
    = Ok (server1, ctx1)
    ∧ serverUpdate ctx1 "c1" "s1" (ServerUpdateInput.mk None (Some "X") (Some ""))
      = Ok (server1, ctx2)
    ∧ projects ctx2 = projects ctx1.
Proof.
  eexists _, _. 
  destruct (serverUpdate_idempotent Sample.ctx "c1" "s1"
              (ServerUpdateInput.mk None (Some "X") (Some "")) _ _ eq_refl)
    as (ctx2 & H2 & Hp & _).
  exists ctx2. split; [reflexivity|]. by split.
Defined.

End UpdateMore.

Module EmptyInputs.
Import ServerResolvers ToggleFacts ToggleEffect UpdateTheorems.

Lemma persistAndFlush_unchanged db serverId server :
  serverOf db serverId = Some server →
  (∀ s, s ∈ servers_tbl db → Server.id s = serverId → s = server) →
  Em.persistAndFlush server db = db.
Proof.
  intros Hs Huniq. destruct db as [ss bs hs]. unfold Em.persistAndFlush. cbn in *. f_equal.
  apply findOne_Some in Hs as [Hid%bool_decide_eq_true _].
  unfold Em.nativeUpdate. rewrite <- (list_fmap_id ss) at 2.
  apply list_fmap_ext. intros i s Hi. cbn.
  case_bool_decide as E; [|done]. symmetry. apply Huniq; [|congruence].
  by eapply list_elem_of_lookup_2.
Qed.

(** X9. An empty string does not clear a field.  When each field of the input
    of [serverUpdate] is left out or empty, the server is returned as it is
    stored, and where the server's id is the id of one row only, the
    campaign's database is left as it was; likewise [updateServerMetadata]
    with an empty display name and no type returns the server as stored. *)
Theorem empty_input_changes_nothing ctx campaignId serverId input db server :
  projects ctx !! campaignId = Some db →
  serverOf db serverId = Some server →
  truthy (ServerUpdateInput.parsingPath input) = None →
  truthy (ServerUpdateInput.name input) = None →
  truthy (ServerUpdateInput.displayName input) = None →
  (∃ ctx',
     serverUpdate ctx campaignId serverId input = Ok (server, ctx')
     ∧ ((∀ s, s ∈ servers_tbl db → Server.id s = serverId → s = server) →
        projects ctx' = projects ctx))
  ∧ (∃ ctx',
       updateServerMetadata ctx serverId campaignId (Some "") None = Ok (server, ctx')
       ∧ ((∀ s, s ∈ servers_tbl db → Server.id s = serverId → s = server) →
          ctx' = ctx)).
Proof.
  intros Hdb Hs Hp Hn Hd. split.
  - unfold serverUpdate, connectToProjectEmOrFail. rewrite Hdb. cbn [orFail bind].
    fold (serverOf db serverId). rewrite Hs. cbn [orFail bind]. rewrite Hp, Hn, Hd.
    eexists. split; [reflexivity|]. intros Huniq.
    cbn [projects signal set_project].
    rewrite (persistAndFlush_unchanged db serverId server Hs Huniq).
    by apply insert_id.
  - unfold updateServerMetadata, connectToProjectEmOrFail. rewrite Hdb. cbn [orFail bind].
    fold (serverOf db serverId). rewrite Hs. cbn [orFail bind truthy].
    eexists. split; [reflexivity|]. intros Huniq.
    rewrite (persistAndFlush_unchanged db serverId server Hs Huniq).
    destruct ctx as [m p sg]. unfold set_project. cbn in *. f_equal. by apply insert_id.
Qed.

Lemma empty_input_changes_nothing_witness :
  projects Sample.ctx !! "c1" = Some Sample.db
  ∧ serverOf Sample.db "s1" = Some (Server.mk "s1" "A" "B" "C" false HTTP)
  ∧ (∃ ctx',
       serverUpdate Sample.ctx "c1" "s1" (ServerUpdateInput.mk (Some "") None (Some ""))
       = Ok (Server.mk "s1" "A" "B" "C" false HTTP, ctx'))
  ∧ (∃ ctx',
       updateServerMetadata Sample.ctx "s1" "c1" (Some "") None
       = Ok (Server.mk "s1" "A" "B" "C" false HTTP, ctx')).
Proof.
  split; [reflexivity|]. split; [reflexivity|].
  destruct (empty_input_changes_nothing Sample.ctx "c1" "s1"
              (ServerUpdateInput.mk (Some "") None (Some "")) Sample.db
              (Server.mk "s1" "A" "B" "C" false HTTP) eq_refl eq_refl eq_refl eq_refl eq_refl)
    as [(ctx1 & H1 & _) (ctx2 & H2 & _)].
  split; [by exists ctx1|by exists ctx2].
Defined.

End EmptyInputs.

Module ParseAndCreate.
Import ServerResolvers ToggleFacts ToggleEffect ServersTheorems ServersMore.
Import ParseResolver FolderResolver.

(** X10. [serversParse] sends the parse command exactly when it succeeds.
    In blue-team mode it fails, whatever the campaign, and sends nothing; on
    an unknown campaign it fails with NotFound and sends nothing; otherwise it
    returns [true] and sends one [PARSE_CAMPAIGN] command for the campaign,
    and it never touches the databases. *)
Theorem serversParse_sends_on_success ctx campaignId :
  (blueTeam ctx = true →
   serversParse ctx campaignId
   = Fail (Exception "Parsing cannot be invoked from blue team mode"))
  ∧ (blueTeam ctx = false → projects (base ctx) !! campaignId = None →
     serversParse ctx campaignId = Fail (NotFound campaignId))
  ∧ (blueTeam ctx = false → is_Some (projects (base ctx) !! campaignId) →
     ∃ ctx', serversParse ctx campaignId = Ok (true, ctx'))
  ∧ (∀ r ctx', serversParse ctx campaignId = Ok (r, ctx') →
       r = true
       ∧ blueTeam ctx = false
       ∧ is_Some (projects (base ctx) !! campaignId)
       ∧ sent ctx' = PARSE_CAMPAIGN campaignId :: sent ctx
       ∧ base ctx' = base ctx
       ∧ blueTeam ctx' = blueTeam ctx).
Proof.
  unfold serversParse, connectToProjectEmOrFail. split_and!.
  - by intros ->.
  - by intros -> ->.
  - intros -> [db ->]. by eexists.
  - intros r ctx'. destruct (blueTeam ctx); [done|].
    destruct (projects (base ctx) !! campaignId); [|done]. cbn.
    intros [= <- <-]. by split_and!.
Qed.

Lemma serverFolderCreate_run ctx campaignId name path blank db :
  projects ctx !! campaignId = Some db →
  serverFolderCreate ctx campaignId name path blank
  = Ok (newServer blank name path,
        set_project campaignId (persistNew (newServer blank name path) db) ctx).
Proof.
  intros Hdb. unfold serverFolderCreate, connectToProjectEmOrFail. by rewrite Hdb.
Qed.

(** X11. [serverFolderCreate] on an existing campaign adds one row, at the end
    of the servers table, that carries the given name and parsing path; every
    server that could be found before is still found, unchanged; the beacon
    and host tables and the other campaigns are untouched.  It checks nothing
    about the name or the path, and sends no notification. *)
Theorem serverFolderCreate_adds_row ctx campaignId name path blank db :
  projects ctx !! campaignId = Some db →
  ∃ server ctx' db',
    serverFolderCreate ctx campaignId name path blank = Ok (server, ctx')
    ∧ projects ctx' !! campaignId = Some db'
    ∧ Server.name server = name
    ∧ Server.parsingPath server = path
    ∧ Server.id server = Server.id blank
    ∧ servers_tbl db' = (servers_tbl db ++ [server])%list
    ∧ beacons_tbl db' = beacons_tbl db
    ∧ hosts_tbl db' = hosts_tbl db
    ∧ (∀ serverId s, serverOf db serverId = Some s → serverOf db' serverId = Some s)
    ∧ (serverOf db (Server.id blank) = None → serverOf db' (Server.id blank) = Some server)
    ∧ (∀ other, other ≠ campaignId → projects ctx' !! other = projects ctx !! other)
    ∧ signals ctx' = signals ctx.
Proof.
  intros Hdb. rewrite (serverFolderCreate_run _ _ _ _ _ _ Hdb).
  eexists _, _, _. split; [reflexivity|].
  split; [apply lookup_insert_eq|].
  unfold serverOf, Em.findOne, Em.find, persistNew. cbn [servers_tbl beacons_tbl hosts_tbl].
  split_and!; try done.
  - intros serverId s Hs. rewrite filter_app.
    destruct (filter _ (servers_tbl db)); [done|]. exact Hs.
  - intros Hnone. rewrite filter_app.
    destruct (filter _ (servers_tbl db)); [|done].
    rewrite app_nil_l, filter_cons, decide_True; [done|].
    cbn. by rewrite bool_decide_eq_true_2.
  - intros other Hne. by apply lookup_insert_ne.
Qed.

Lemma serverFolderCreate_adds_row_witness :
  projects Sample.ctx !! "c1" = Some Sample.db
  ∧ ∃ ctx' db',
      serverFolderCreate Sample.ctx "c1" "live" "/data/logs" (Server.mk "s9" "" "" "" false HTTP)
      = Ok (Server.mk "s9" "live" "" "/data/logs" false HTTP, ctx')
      ∧ projects ctx' !! "c1" = Some db'
      ∧ serverOf db' "s9" = Some (Server.mk "s9" "live" "" "/data/logs" false HTTP)
      ∧ serverOf db' "s1" = Some (Server.mk "s1" "A" "B" "C" false HTTP).
Proof.
  split; [reflexivity|].
  destruct (serverFolderCreate_adds_row Sample.ctx "c1" "live" "/data/logs"
              (Server.mk "s9" "" "" "" false HTTP) Sample.db eq_refl)
    as (server & ctx' & db' & Hcall & Hdb' & _ & _ & _ & _ & _ & _ & Hold & Hnew & _).
  assert (server = Server.mk "s9" "live" "" "/data/logs" false HTTP) as ->.
  { vm_compute in Hcall. by injection Hcall as <- _. }
  exists ctx', db'. split_and!; [done..| |].
  - by apply Hnew.
  - by apply Hold.
Defined.

(** X12. A server made by [serverFolderCreate] has no beacons yet: as long as
    no beacon refers to its id, [servers] with [hidden = false] does not
    return it, while [servers] with [hidden = true] does, with an empty
    beacons collection. *)
Theorem created_server_listed_only_with_hidden ctx campaignId name path blank username db em :
  projects ctx !! campaignId = Some db →
  mainDb ctx = Some em →
  (∀ b, b ∈ beacons_tbl db → Beacon.server b ≠ Server.id blank) →
  ∃ server ctx1 visible ctx2 all ctx3,
    serverFolderCreate ctx campaignId name path blank = Ok (server, ctx1)
    ∧ servers ctx1 campaignId username false = Ok (visible, ctx2)
    ∧ Forall (λ l, Server.id (entity l) ≠ Server.id server) visible
    ∧ servers ctx1 campaignId username true = Ok (all, ctx3)
    ∧ mkLoaded server [] ∈ all.
Proof.
  intros Hdb Hem Hno.
  pose proof (serverFolderCreate_run ctx campaignId name path blank db Hdb) as Hcall.
  set (server := newServer blank name path) in *.
  set (db1 := persistNew server db) in *.
  set (ctx1 := set_project campaignId db1 ctx) in *.
  assert (projects ctx1 !! campaignId = Some db1) as Hdb1 by apply lookup_insert_eq.
  assert (Server.id server = Server.id blank) as Hid by done.
  assert (servers_tbl db1 = (servers_tbl db ++ [server])%list) as Hss by done.
  assert (beacons_tbl db1 = beacons_tbl db) as Hbs by done.
  assert (mainDb ctx1 = Some em) as Hem1 by done.
  destruct (servers_ok ctx1 campaignId username false db1 em Hdb1 Hem1) as (vis & ctx2 & Hv).
  destruct (servers_ok ctx1 campaignId username true db1 em Hdb1 Hem1) as (all & ctx3 & Ha).
  exists server, ctx1, vis, ctx2, all, ctx3. split_and!; try done.
  - apply servers_visible_inv in Hv as (db1' & Hdb1' & ->).
    assert (db1' = db1) as -> by congruence.
    apply Forall_fmap, Forall_forall. intros s Hin. cbn.
    apply find_elem in Hin as [Hw _].
    apply serversWhere_visible in Hw as (_ & b & Hb & Hsrv & _).
    rewrite Hbs in Hb. intros E. apply (Hno b Hb). congruence.
  - apply servers_inv in Ha as (db1' & em' & Hdb1' & _ & -> & _).
    assert (db1' = db1) as -> by congruence. cbn [negb].
    rewrite find_anyRow, Hss.
    assert (beacons_init anyRow db1 server = []) as <-.
    { rewrite beacons_init_beaconsOf. unfold beaconsOf. rewrite Hbs.
      destruct (Em.find _ (beacons_tbl db)) as [|b bs] eqn:E; [done|].
      assert (b ∈ Em.find (λ b, bool_decide (Beacon.server b = Server.id server))
                    (beacons_tbl db)) as Hin by (rewrite E; apply list_elem_of_here).
      apply find_elem in Hin as [Hsrv%bool_decide_eq_true Hin].
      exfalso. apply (Hno b Hin). congruence. }
    apply (list_elem_of_fmap_2
             (λ s, mkLoaded s (beacons_init anyRow db1 s))).
    apply elem_of_app. right. apply list_elem_of_here.
Qed.

Lemma created_server_listed_only_with_hidden_witness :
  projects Sample.ctx !! "c1" = Some Sample.db
  ∧ mainDb Sample.ctx = Some (mkMainDb ["alice"] [Campaign.mk "c1" None])
  ∧ ∃ server ctx1 visible ctx2 all ctx3,
      serverFolderCreate Sample.ctx "c1" "live" "/data/logs"
        (Server.mk "s9" "" "" "" false HTTP) = Ok (server, ctx1)
      ∧ servers ctx1 "c1" "alice" false = Ok (visible, ctx2)
      ∧ Forall (λ l, Server.id (entity l) ≠ Server.id server) visible
      ∧ servers ctx1 "c1" "alice" true = Ok (all, ctx3)
      ∧ mkLoaded server [] ∈ all.
Proof.
  split; [reflexivity|]. split; [reflexivity|].
  apply (created_server_listed_only_with_hidden Sample.ctx "c1" "live" "/data/logs"
           (Server.mk "s9" "" "" "" false HTTP) "alice" Sample.db
           (mkMainDb ["alice"] [Campaign.mk "c1" None])); [reflexivity..|].
  intros b Hb. cbn in Hb.
  repeat (apply elem_of_cons in Hb as [->|Hb]; [done|]). by apply elem_of_nil in Hb.
Defined.

End ParseAndCreate.

(* ================================================================== *)
(** * Further properties of the string helpers *)

Module JsMore.
Import JsInverse.

Local Abbreviation chars := String.list_ascii_of_string.

(** No segment of a split holds the separator. *)
Lemma split_segments sep s : Forall (λ seg, sep ∉ chars seg) (Js.split sep s).
Proof.
  induction s as [|c s IH].
  - constructor; [apply not_elem_of_nil|constructor].
  - cbn [Js.split]. case_bool_decide as Hc.
    + constructor; [apply not_elem_of_nil|done].
    + pose proof (PathFacts.split_nonempty sep s) as Hne. revert IH.
      destruct (Js.split sep s) as [|seg segs]; [done|]. intros IH.
      apply Forall_cons in IH as [Hseg Hsegs].
      constructor; [|done]. cbn. apply not_elem_of_cons. split; [congruence|done].
Qed.

(** X13. [split] and [join] are inverse on one side: joining the segments of
    a string by the separator gives the string back; no segment holds the
    separator, and there is one more segment than there are separators, so at
    least one. *)
Theorem split_concat sep s :
  String.concat (String sep EmptyString) (Js.split sep s) = s
  ∧ Forall (λ seg, sep ∉ chars seg) (Js.split sep s)
  ∧ length (Js.split sep s) = S (length (filter (λ c, c = sep) (chars s))).
Proof.
  split; [|split; [apply split_segments|]].
  - induction s as [|c s IH]; [done|]. cbn [Js.split].
    pose proof (PathFacts.split_nonempty sep s) as Hne. revert IH.
    destruct (Js.split sep s) as [|seg segs]; [done|]. intros IH.
    case_bool_decide as Hc.
    + subst c.
      change (String.concat (String sep "") ("" :: seg :: segs))
        with (String sep (String.concat (String sep "") (seg :: segs))).
      by rewrite IH.
    + rewrite <- IH. by destruct segs.
  - induction s as [|c s IH]; [done|]. cbn [Js.split chars]. rewrite filter_cons.
    pose proof (PathFacts.split_nonempty sep s) as Hne. revert IH.
    destruct (Js.split sep s) as [|seg segs]; [done|]. intros IH.
    destruct (decide (c = sep)) as [->|Hc].
    + rewrite bool_decide_eq_true_2 by done. cbn in *. by rewrite IH.
    + by rewrite bool_decide_eq_false_2 by done.
Qed.

(** X14. Replacing one character by another keeps the length of the string
    and the characters that are not replaced; when the two characters differ,
    the replaced one is gone, replacing again changes nothing, and a string
    without the character is left as it is. *)
Theorem replaceAll_properties from to s :
  String.length (Js.replaceAll from to s) = String.length s
  ∧ (∀ i c, String.get i s = Some c → c ≠ from →
       String.get i (Js.replaceAll from to s) = Some c)
  ∧ (∀ i, String.get i s = Some from → String.get i (Js.replaceAll from to s) = Some to)
  ∧ (from ≠ to → from ∉ chars (Js.replaceAll from to s))
  ∧ (from ≠ to → Js.replaceAll from to (Js.replaceAll from to s) = Js.replaceAll from to s)
  ∧ (from ∉ chars s → Js.replaceAll from to s = s).
Proof.
  induction s as [|c s (IH1 & IH2 & IH3 & IH4 & IH5 & IH6)].
  - cbn. split_and!; try done. intros _. apply not_elem_of_nil.
  - cbn [Js.replaceAll String.length chars]. split_and!.
    + by rewrite IH1.
    + intros [|i] d; cbn.
      * intros [= <-] Hne. by rewrite bool_decide_eq_false_2.
      * apply IH2.
    + intros [|i]; cbn.
      * intros [= ->]. by rewrite bool_decide_eq_true_2.
      * apply IH3.
    + intros Hne. apply not_elem_of_cons. split; [|by apply IH4].
      case_bool_decide; congruence.
    + intros Hne. cbn [Js.replaceAll]. rewrite IH5 by done. f_equal.
      destruct (decide (c = from)) as [->|Hc].
      * rewrite (bool_decide_eq_true_2 (from = from)) by done.
        by destruct (bool_decide (to = from)).
      * by rewrite !(bool_decide_eq_false_2 (c = from)) by done.
    + intros [Hc Hs]%not_elem_of_cons. rewrite IH6 by done.
      by rewrite bool_decide_eq_false_2 by congruence.
Qed.

Lemma backslash_not_whitespace : Js.isWhitespace Js.backslash = false.
Proof. reflexivity. Qed.

Lemma escapeRuns_empty inRun s : Js.escapeRuns inRun s = EmptyString → s = EmptyString.
Proof.
  destruct s as [|c s]; [done|]. cbn.
  by destruct (Js.isWhitespace c), inRun.
Qed.

(** Outside a run the escaped string does not start with whitespace. *)
Lemma escapeRuns_head s d rest :
  Js.escapeRuns false s = String d rest → Js.isWhitespace d = false.
Proof.
  destruct s as [|c s]; [done|]. cbn.
  destruct (Js.isWhitespace c) eqn:E; intros [= <- _];
    [apply backslash_not_whitespace|done].
Qed.

Lemma unescape_cons_plain c rest :
  (∀ d rest', rest = String d rest' →
     (bool_decide (c = Js.backslash) && Js.isWhitespace d) = false) →
  unescapeWhitespace (String c rest) = String c (unescapeWhitespace rest).
Proof.
  intros H. destruct rest as [|d rest']; [done|].
  cbn [unescapeWhitespace]. by rewrite (H d rest').
Qed.

Lemma unescape_escapeRuns inRun s :
  unescapeWhitespace (Js.escapeRuns inRun s) = s.
Proof.
  revert inRun. induction s as [|c s IH]; intros inRun; [done|].
  cbn [Js.escapeRuns].
  assert (Js.isWhitespace c = true →
          unescapeWhitespace (String c (Js.escapeRuns true s)) = String c s) as Hrun.
  { intros Hc. rewrite unescape_cons_plain; [by rewrite IH|].
    intros d rest' _. rewrite bool_decide_eq_false_2; [done|].
    intros ->. by rewrite backslash_not_whitespace in Hc. }
  destruct (Js.isWhitespace c) eqn:Hc.
  - destruct inRun; [by apply Hrun|].
    change (unescapeWhitespace (String Js.backslash (String c (Js.escapeRuns true s))))
      with (if bool_decide (Js.backslash = Js.backslash) && Js.isWhitespace c
            then unescapeWhitespace (String c (Js.escapeRuns true s))
            else String Js.backslash (unescapeWhitespace (String c (Js.escapeRuns true s)))).
    rewrite bool_decide_eq_true_2, Hc by done. by apply Hrun.
  - rewrite unescape_cons_plain; [by rewrite IH|].
    intros d rest' E. apply escapeRuns_head in E. rewrite E. apply andb_false_r.
Qed.

(** X15. Escaping whitespace only inserts backslashes: dropping each
    backslash that stands right before a whitespace character gives the
    string back, so two different strings never have the same escaped form;
    a string without whitespace is left as it is. *)
Theorem escapeWhitespace_invertible :
  (∀ s, unescapeWhitespace (Js.escapeWhitespace s) = s)
  ∧ (∀ s1 s2, Js.escapeWhitespace s1 = Js.escapeWhitespace s2 → s1 = s2)
  ∧ (∀ s, Forall (λ c, Js.isWhitespace c = false) (chars s) → Js.escapeWhitespace s = s).
Proof.
  split_and!.
  - intros s. apply unescape_escapeRuns.
  - intros s1 s2 E.
    rewrite <- (unescape_escapeRuns false s1), <- (unescape_escapeRuns false s2).
    unfold Js.escapeWhitespace in E. by rewrite E.
  - intros s H. unfold Js.escapeWhitespace.
    cut (∀ b, Js.escapeRuns b s = s); [done|].
    induction s as [|c s IH]; intros b; [done|].
    cbn in H. apply Forall_cons in H as [Hc Hs]. cbn. rewrite Hc.
    f_equal. by apply IH.
Qed.

End JsMore.

(* ================================================================== *)
(** * Further properties of the parser validation endpoint *)

Module EndpointMore.
Import ParserEndpoint StagingTheorems.

(** A single file outside an array is staged like an array of one file. *)
Lemma parserFileValidation_staged_one_any context w req prop first :
  getProperty (parserInfo context) (params_parserName req) = Some prop →
  files req = Some (OneFile first) →
  parserFileValidation context w req
  = ((CreateTempDir (tempDir w)
      :: (mvOf (tempDir w) <$> [first])
      ++ [InvokeParser (params_parserName req) (validateArgs (tempDir w) first);
          RemoveTempDir (tempDir w)])%list,
     match parserOutcome w (params_parserName req) (validateArgs (tempDir w) first) with
     | Ok validated => Ok (mkResponse 200 (Validated validated))
     | Fail e => Fail e
     end).
Proof.
  intros Hp Hf.
  pose proof (parserFileValidation_staged_any context w
                (mkRequest (params_parserName req) (Some (FileList [first])))
                prop first [] Hp eq_refl) as H.
  cbn [params_parserName] in H. rewrite <- H.
  unfold parserFileValidation. cbn [params_parserName files]. by rewrite Hp, Hf.
Qed.

Lemma parserFileValidation_staged_one context w req parser first :
  parserInfo context !! params_parserName req = Some parser →
  files req = Some (OneFile first) →
  parserFileValidation context w req
  = ((CreateTempDir (tempDir w)
      :: (mvOf (tempDir w) <$> [first])
      ++ [InvokeParser (params_parserName req) (validateArgs (tempDir w) first);
          RemoveTempDir (tempDir w)])%list,
     match parserOutcome w (params_parserName req) (validateArgs (tempDir w) first) with
     | Ok validated => Ok (mkResponse 200 (Validated validated))
     | Fail e => Fail e
     end).
Proof.
  intros Hp. apply parserFileValidation_staged_one_any with (OwnEntry parser).
  by apply EndpointTheorems.getProperty_own.
Qed.

(** X16. A request that names a known parser and carries a [files] object
    without a usable [file] entry (none, or an empty array) fails with a
    TypeError when the first name is read: no file is moved, the parser is
    not invoked and no response is sent. *)
Theorem parserFileValidation_missing_file context w req parser :
  parserInfo context !! params_parserName req = Some parser →
  files req = Some NoFile ∨ files req = Some (FileList []) →
  (∃ what, (parserFileValidation context w req).2 = Fail (TypeError what))
  ∧ Forall (λ ev, isCreate ev = true ∨ isRemove ev = true)
      (parserFileValidation context w req).1.
Proof.
  intros Hp Hf. unfold parserFileValidation.
  rewrite (EndpointTheorems.getProperty_own _ _ _ Hp).
  destruct Hf as [-> | ->]; cbn; (split; [by eexists|]).
  - constructor; [by left|]. constructor; [by right|]. constructor.
  - constructor; [by left|]. constructor; [by right|]. constructor.
Qed.

Lemma parserFileValidation_missing_file_witness :
  parserInfo Sample.context !! "cobalt-strike-parser"
  = Some (mkParserInfo "cobalt-strike-parser")
  ∧ files (Sample.upload []) = Some (FileList [])
  ∧ (∃ what, (parserFileValidation Sample.context Sample.world (Sample.upload [])).2
             = Fail (TypeError what))
  ∧ Forall (λ ev, isCreate ev = true ∨ isRemove ev = true)
      (parserFileValidation Sample.context Sample.world (Sample.upload [])).1.
Proof.
  split; [reflexivity|]. split; [reflexivity|].
  apply (parserFileValidation_missing_file Sample.context Sample.world (Sample.upload [])
           (mkParserInfo "cobalt-strike-parser")); [reflexivity|right; reflexivity].
Defined.

(** X17. What a response tells.  The parser is invoked at most once per
    request.  A response is sent in three cases only: status 400 for an
    unknown parser and status 500 for a request without files, both before
    anything is done; and status 200, whose body is the result of the one
    parser run, made after one move per uploaded file, in upload order, on
    the folder named by the first file.  When the parser run fails no
    response is sent. *)
Theorem parserFileValidation_responses context w req :
  (length (filter isInvoke (parserFileValidation context w req).1) ≤ 1)%nat
  ∧ (∀ resp, (parserFileValidation context w req).2 = Ok resp →
       (resp = mkResponse 400
                 (Msg ("Parser " +:+ params_parserName req +:+ " is not available"))
        ∧ parserInfo context !! params_parserName req = None
        ∧ (parserFileValidation context w req).1 = [])
       ∨ (resp = mkResponse 500 (Msg "No files provided")
          ∧ files req = None
          ∧ (parserFileValidation context w req).1 = [])
       ∨ (∃ first rest validated,
            (files req = Some (FileList (first :: rest))
             ∨ files req = Some (OneFile first) ∧ rest = [])
            ∧ resp = mkResponse 200 (Validated validated)
            ∧ parserOutcome w (params_parserName req) (validateArgs (tempDir w) first)
              = Ok validated
            ∧ (parserFileValidation context w req).1
              = (CreateTempDir (tempDir w)
                 :: (mvOf (tempDir w) <$> first :: rest)
                 ++ [InvokeParser (params_parserName req) (validateArgs (tempDir w) first);
                     RemoveTempDir (tempDir w)])%list)).
Proof.
  assert (∀ dir (fs : list UploadedFile.t) name args,
            length (filter isInvoke
                      (CreateTempDir dir :: (mvOf dir <$> fs)
                       ++ [InvokeParser name args; RemoveTempDir dir])%list) = 1) as Hone.
  { intros dir fs name args.
    rewrite filter_cons_False, filter_app by (cbn; auto).
    assert (filter isInvoke (mvOf dir <$> fs) = []) as ->.
    { induction fs as [|f fs IH]; [done|].
      by rewrite fmap_cons, filter_cons_False by (cbn; auto). }
    rewrite filter_cons_True, filter_cons_False by (cbn; auto). done. }
  assert (filter isInvoke [CreateTempDir (tempDir w); RemoveTempDir (tempDir w)] = [])
    as Hnone by (by rewrite !filter_cons_False by (cbn; auto)).
  destruct (getProperty (parserInfo context) (params_parserName req)) as [prop|] eqn:Hp.
  2:{ unfold parserFileValidation. rewrite Hp. cbn. split; [lia|].
      intros resp [= <-]. left.
      by apply EndpointTheorems.getProperty_None in Hp as [Hp _]. }
  destruct (files req) as [[|first|[|first rest]]|] eqn:Hf.
  - unfold parserFileValidation. rewrite Hp, Hf.
    change (andThen _ _) with
      ([CreateTempDir (tempDir w); RemoveTempDir (tempDir w)],
       @Fail Response
         (TypeError "Cannot read properties of undefined (reading 'name')")).
    cbn [fst snd]. rewrite Hnone. split; [cbn; lia|done].
  - rewrite (parserFileValidation_staged_one_any _ _ _ prop first Hp Hf). cbn [fst snd].
    split; [rewrite Hone; lia|].
    intros resp Hr. right. right.
    destruct (parserOutcome w _ _) as [validated|] eqn:Ho; [|done].
    injection Hr as <-. exists first, [], validated. split_and!; auto.
  - unfold parserFileValidation. rewrite Hp, Hf.
    change (andThen _ _) with
      ([CreateTempDir (tempDir w); RemoveTempDir (tempDir w)],
       @Fail Response
         (TypeError "Cannot read properties of undefined (reading 'name')")).
    cbn [fst snd]. rewrite Hnone. split; [cbn; lia|done].
  - rewrite (parserFileValidation_staged_any _ _ _ prop first rest Hp Hf). cbn [fst snd].
    split; [rewrite Hone; lia|].
    intros resp Hr. right. right.
    destruct (parserOutcome w _ _) as [validated|] eqn:Ho; [|done].
    injection Hr as <-. exists first, rest, validated. split_and!; auto.
  - unfold parserFileValidation. rewrite Hp, Hf. cbn. split; [lia|].
    intros resp [= <-]. right. by left.
Qed.



End EndpointMore.

Module FolderFacts.
Import ParserEndpoint.

Local Abbreviation chars := String.list_ascii_of_string.

Lemma append_assoc a b c : (a +:+ b) +:+ c = a +:+ (b +:+ c).
Proof.
  induction a as [|x a IH]; [done|]. by rewrite !PathFacts.append_cons, IH.
Qed.

Lemma append_nil_r a : a +:+ "" = a.
Proof. induction a as [|x a IH]; [done|]. by rewrite PathFacts.append_cons, IH. Qed.

Lemma split_no_sep sep s : sep ∉ chars s → Js.split sep s = [s].
Proof.
  induction s as [|c s IH]; [done|]. cbn. intros [Hc Hs]%not_elem_of_cons.
  rewrite bool_decide_eq_false_2 by congruence. by rewrite IH.
Qed.

Lemma endsWithSlash_no_slash s : "/"%char ∉ chars s → Path.endsWithSlash s = false.
Proof.
  induction s as [|c s IH]; [done|]. cbn. intros [Hc Hs]%not_elem_of_cons.
  destruct s; [by apply bool_decide_eq_false_2; congruence|by apply IH].
Qed.

Lemma concat_app sep (segs more : list string) :
  segs ≠ [] → more ≠ [] →
  String.concat sep (segs ++ more)%list = String.concat sep segs +:+ sep +:+ String.concat sep more.
Proof.
  intros Hs Hm. induction segs as [|x segs IH]; [done|].
  destruct segs as [|y segs].
  - cbn [app String.concat]. by destruct more.
  - change (String.concat sep ((x :: y :: segs) ++ more)%list)
      with (x +:+ sep +:+ String.concat sep ((y :: segs) ++ more)%list).
    rewrite IH by done.
    change (String.concat sep (x :: y :: segs)) with (x +:+ sep +:+ String.concat sep (y :: segs)).
    by rewrite !append_assoc.
Qed.

(** More segments extend a rendered path by nothing or by [/...]. *)
Lemma render_extend abs tr (segs more : list string) :
  segs ≠ [] →
  ∃ rest,
    Path.render abs tr (segs ++ more)%list = Path.render abs false segs +:+ rest
    ∧ (rest = "" ∨ ∃ r, rest = String "/" r).
Proof.
  intros Hs. unfold Path.render.
  destruct (segs ++ more)%list as [|z zs] eqn:E; [by destruct segs|]. rewrite <- E. clear E.
  destruct segs as [|x segs]; [done|].
  set (pre := if abs then "/" else "").
  destruct more as [|m more].
  - rewrite app_nil_r. exists (if tr then "/" else "").
    rewrite !append_assoc. split; [done|]. destruct tr; [right; by eexists|by left].
  - rewrite concat_app by done.
    exists ("/" +:+ String.concat "/" (m :: more) +:+ (if tr then "/" else "")).
    split; [by rewrite !append_assoc|]. right. by eexists.
Qed.

(** X19. The first file lands in the folder the parser is pointed at.  When
    the normalized name of the first file has no [..] segment and starts with
    a proper directory name (not empty, not [.]), the path the first file is
    moved to is the folder given to the parser (before its whitespace is
    escaped), or that folder followed by [/] and more. *)
Theorem first_file_below_folder dir first :
  dir ≠ "" →
  ".." ∉ Js.split "/" (Js.replaceAll ":" "/" (UploadedFile.name first)) →
  rootOf first ≠ "" →
  rootOf first ≠ "." →
  ∃ rest,
    Path.join [dir; Js.replaceAll ":" "/" (UploadedFile.name first)]
    = Path.join [dir; rootOf first] +:+ rest
    ∧ (rest = "" ∨ ∃ r, rest = String "/" r).
Proof.
  intros Hdir Hno Hroot Hdot. unfold rootOf in *.
  set (n := Js.replaceAll ":" "/" (UploadedFile.name first)) in *.
  pose proof (JsMore.split_segments "/" n) as Hsegs.
  assert (n ≠ "") as Hn by (intros E; by rewrite E in Hroot).
  destruct (Js.split "/" n) as [|root tl] eqn:Hsplit; [done|]. cbn in Hroot, Hdot. cbn.
  apply Forall_cons in Hsegs as [Hslash _].
  apply not_elem_of_cons in Hno as [Hdd Hno].
  assert (".." ∉ Js.split "/" n) as Hno_n by (rewrite Hsplit; by apply not_elem_of_cons).
  assert (".." ∉ Js.split "/" root) as Hno_root.
  { rewrite split_no_sep by done. apply not_elem_of_cons. split; [done|apply not_elem_of_nil]. }
  rewrite (PathFacts.join_below dir n Hdir Hn Hno_n).
  rewrite (PathFacts.join_below dir root Hdir Hroot Hno_root).
  rewrite Hsplit. rewrite (split_no_sep "/" root) by done.
  rewrite (endsWithSlash_no_slash root) by done.
  unfold Path.kept. rewrite !filter_cons. rewrite !decide_True by tauto. rewrite filter_nil.
  rewrite cons_middle, app_assoc.
  apply render_extend. by destruct (Path.normalizeSegments _ _).
Qed.

Lemma first_file_below_folder_witness :
  ∃ rest,
    Path.join ["/tmp/redeye-1"; Js.replaceAll ":" "/" "my logs:srv 1:a.log"]
    = Path.join ["/tmp/redeye-1"; "my logs"] +:+ rest
    ∧ (rest = "" ∨ ∃ r, rest = String "/" r).
Proof.
  apply (first_file_below_folder "/tmp/redeye-1" (UploadedFile.mk "my logs:srv 1:a.log"));
    [done| |done|done].
  cbn. intros H.
  repeat (apply elem_of_cons in H as [H|H]; [discriminate H|]). by apply elem_of_nil in H.
Defined.

End FolderFacts.

(* ================================================================== *)
(** * Further properties of the comments list *)

Module CommentsListMore.
Import CommentsList CommentsListTheorems.

(** X20. The list renders one row per item, in order, and nothing when the
    data is missing.  In every row muted and italic go together and mark the
    [procedural] item, whose icon alone takes the disabled colour; bold marks
    the [all] and [favorited] items and is never combined with muted; there is
    one leading icon, except that the [all] item has none; the two counters
    are the item's command count and comment count. *)
Theorem render_rows data :
  render None = []
  ∧ length (render data) = length (default [] data)
  ∧ Forall2
      (λ item row,
         title row = rowTitle item
         ∧ commands row = commandCount item
         ∧ comments row = count item
         ∧ (bold row = true ↔ id item = "all" ∨ id item = "favorited")
         ∧ (muted row = true ↔ id item = "procedural")
         ∧ italic row = muted row
         ∧ (bold row = true → muted row = false)
         ∧ (id item = "all" → leading row = [])
         ∧ (id item ≠ "all" → leading row = [mkCarbonIcon (getIcon (id item)) (muted row)]))
      (default [] data) (render data).
Proof.
  split; [done|]. destruct data as [items|]; cbn [render default]; [|by split].
  split; [by rewrite length_fmap|].
  apply Forall2_fmap_r, Forall_Forall2_diag, Forall_forall. intros item _.
  unfold renderRow, compose. cbn beta.
  cbn [title commands comments bold muted italic leading].
  split_and!; try done.
  - rewrite bool_decide_eq_true, !elem_of_cons, elem_of_nil. tauto.
  - by rewrite bool_decide_eq_true.
  - rewrite !bool_decide_eq_true, !elem_of_cons, elem_of_nil.
    intros [->| [->|[]]]; by apply bool_decide_eq_false_2.
  - intros ->. done.
  - intros Hne. by rewrite bool_decide_eq_true_2.
Qed.

(** X21. The title is what is left of the key after at most one prefix is cut:
    the key is the title with nothing, [#] or [user-] in front, and a key
    that starts with [#] loses only the [#], also when [user-] follows. *)
Theorem rowTitle_suffix item :
  (∃ pre, pre ∈ [""; "#"; "user-"] ∧ key item = pre +:+ rowTitle item)
  ∧ (String.length (rowTitle item) ≤ String.length (key item))%nat
  ∧ (∀ rest, key item = "#user-" +:+ rest → rowTitle item = "user-" +:+ rest).
Proof.
  destruct item as [i k cc c]. cbn [key]. unfold rowTitle. cbn [key].
  assert (∀ pre t, String.length t ≤ String.length (pre +:+ t))%nat as Hlen.
  { intros pre t. induction pre as [|x pre IH]; [done|].
    rewrite PathFacts.append_cons. cbn. lia. }
  destruct (bool_decide (String.get 0 k = Some "#"%char)) eqn:Hh.
  - apply bool_decide_eq_true in Hh.
    destruct k as [|c0 rest]; [done|]. cbn in Hh. injection Hh as ->.
    rewrite sliceFrom_1. split_and!.
    + exists "#". split; [|done]. apply list_elem_of_further, list_elem_of_here.
    + cbn. lia.
    + by intros rest' [= ->].
  - apply bool_decide_eq_false in Hh.
    destruct (bool_decide (Js.slice 0 5 k = "user-")) eqn:Hu.
    + apply bool_decide_eq_true, slice_user_inv in Hu as (rest & ->).
      rewrite sliceFrom_user. split_and!.
      * exists "user-". split; [|done]. do 2 apply list_elem_of_further. apply list_elem_of_here.
      * apply Hlen.
      * intros rest' E. by cbv [String.append] in E.
    + split_and!.
      * exists "". split; [apply list_elem_of_here|done].
      * done.
      * intros rest ->. by cbv [String.append] in Hh.
Qed.

End CommentsListMore.
